(** * QSFP-DD (CMIS) module memory decoding: a shallow embedding of
    [qsfp-dd.c] / [qsfp-dd.h] and the properties of its decoders.

    The C code receives a pointer [id] to the dumped module memory and
    the declared length [eeprom_len].  The memory is modelled as a list
    of bytes (each a [Z]); a read [id[off]] is a list lookup, and a read
    outside the list, which C leaves undefined, has no result ([None]).
    Every decoder therefore lives in the option monad.  The functions
    print; the embedding returns the values handed to the print calls.
    What the C code has printed before an undefined read is not kept in
    a [None]. *)

From Stdlib Require Import ZArith Lia Bool List QArith.
From Stdlib Require Import Floats.SpecFloat.
From stdpp Require Import base option list strings.

Local Open Scope Z_scope.

(** ** Constants of qsfp-dd.h *)

Definition QSFP_DD_PAG_SIZE : Z := 0x80.
Definition QSFP_DD_EEPROM_5PAG : Z := 0x80 * 6.
Definition QSFP_DD_MAX_CHANNELS : Z := 0x08.
Definition QSFP_DD_READ_TX : Z := 0x00.
Definition QSFP_DD_READ_RX : Z := 0x01.

Definition HA : nat := 0.
Definition LA : nat := 1.
Definition HW : nat := 2.
Definition LW : nat := 3.

Definition QSFP_DD_MODULE_TYPE_OFFSET : Z := 0x55.
Definition QSFP_DD_MT_MMF : Z := 0x01.
Definition QSFP_DD_MT_SMF : Z := 0x02.

Definition QSFP_DD_ID_OFFSET : Z := 0x00.
Definition QSFP_DD_REV_COMPLIANCE_OFFSET : Z := 0x01.

Definition QSFP_DD_CURR_TEMP_OFFSET : Z := 0x0E.
Definition QSFP_DD_CURR_CURR_OFFSET : Z := 0x10.

Definition QSFP_DD_CTOR_OFFSET : Z := 0xCB.

Definition QSFP_DD_VENDOR_NAME_START_OFFSET : Z := 0x81.
Definition QSFP_DD_VENDOR_NAME_END_OFFSET : Z := 0x90.
Definition QSFP_DD_VENDOR_OUI_OFFSET : Z := 0x91.
Definition QSFP_DD_VENDOR_PN_START_OFFSET : Z := 0x94.
Definition QSFP_DD_VENDOR_PN_END_OFFSET : Z := 0xA3.
Definition QSFP_DD_VENDOR_REV_START_OFFSET : Z := 0xA4.
Definition QSFP_DD_VENDOR_REV_END_OFFSET : Z := 0xA5.
Definition QSFP_DD_VENDOR_SN_START_OFFSET : Z := 0xA6.
Definition QSFP_DD_VENDOR_SN_END_OFFSET : Z := 0xB5.
Definition QSFP_DD_DATE_YEAR_OFFSET : Z := 0xB6.
Definition QSFP_DD_DATE_VENDOR_LOT_OFFSET : Z := 0xBD.

Definition QSFP_DD_CLEI_PRESENT_BYTE : Z := 0x02.
Definition QSFP_DD_CLEI_PRESENT_MASK : Z := 0x20.
Definition QSFP_DD_CLEI_START_OFFSET : Z := 0xBE.
Definition QSFP_DD_CLEI_END_OFFSET : Z := 0xC7.

Definition QSFP_DD_CBL_ASM_LEN_OFFSET : Z := 0xCA.
Definition QSFP_DD_6300M_MAX_LEN : Z := 0xFF.

Definition QSFP_DD_MULTIPLIER_00 : Z := 0x00.
Definition QSFP_DD_MULTIPLIER_01 : Z := 0x40.
Definition QSFP_DD_MULTIPLIER_10 : Z := 0x80.
Definition QSFP_DD_MULTIPLIER_11 : Z := 0xC0.
Definition QSFP_DD_LEN_MUL_MASK : Z := 0xC0.
Definition QSFP_DD_LEN_VAL_MASK : Z := 0x3F.

Definition QSFP_DD_PWR_CLASS_OFFSET : Z := 0xC8.
Definition QSFP_DD_PWR_MAX_POWER_OFFSET : Z := 0xC9.

Definition QSFP_DD_COPPER_ATT_5GHZ : Z := 0xCC.
Definition QSFP_DD_COPPER_ATT_7GHZ : Z := 0xCD.
Definition QSFP_DD_COPPER_ATT_12P9GHZ : Z := 0xCE.
Definition QSFP_DD_COPPER_ATT_25P8GHZ : Z := 0xCF.

Definition QSFP_DD_MEDIA_INTF_TECH_OFFSET : Z := 0xD4.
Definition QSFP_DD_850_VCSEL : Z := 0x00.
Definition QSFP_DD_1310_VCSEL : Z := 0x01.
Definition QSFP_DD_1550_VCSEL : Z := 0x02.
Definition QSFP_DD_1310_FP : Z := 0x03.
Definition QSFP_DD_1310_DFB : Z := 0x04.
Definition QSFP_DD_1550_DFB : Z := 0x05.
Definition QSFP_DD_1310_EML : Z := 0x06.
Definition QSFP_DD_1550_EML : Z := 0x07.
Definition QSFP_DD_OTHERS : Z := 0x08.
Definition QSFP_DD_1490_DFB : Z := 0x09.
Definition QSFP_DD_COPPER_UNEQUAL : Z := 0x0A.
Definition QSFP_DD_COPPER_PASS_EQUAL : Z := 0x0B.
Definition QSFP_DD_COPPER_NF_EQUAL : Z := 0x0C.
Definition QSFP_DD_COPPER_F_EQUAL : Z := 0x0D.
Definition QSFP_DD_COPPER_N_EQUAL : Z := 0x0E.
Definition QSFP_DD_COPPER_LINEAR_EQUAL : Z := 0x0F.

Definition PAG01H_OFFSET : Z := 0x01 * 0x80.
Definition QSFP_DD_SMF_LEN_OFFSET : Z := PAG01H_OFFSET + 0x84.
Definition QSFP_DD_OM5_LEN_OFFSET : Z := PAG01H_OFFSET + 0x85.
Definition QSFP_DD_OM4_LEN_OFFSET : Z := PAG01H_OFFSET + 0x86.
Definition QSFP_DD_OM3_LEN_OFFSET : Z := PAG01H_OFFSET + 0x87.
Definition QSFP_DD_OM2_LEN_OFFSET : Z := PAG01H_OFFSET + 0x88.
Definition QSFP_DD_NOM_WAVELENGTH_MSB : Z := PAG01H_OFFSET + 0x8A.
Definition QSFP_DD_NOM_WAVELENGTH_LSB : Z := PAG01H_OFFSET + 0x8B.
Definition QSFP_DD_WAVELENGTH_TOL_MSB : Z := PAG01H_OFFSET + 0x8C.
Definition QSFP_DD_WAVELENGTH_TOL_LSB : Z := PAG01H_OFFSET + 0x8D.

Definition QSFP_DD_SIG_INTEG_TX_OFFSET : Z := PAG01H_OFFSET + 0xA1.
Definition QSFP_DD_SIG_INTEG_RX_OFFSET : Z := PAG01H_OFFSET + 0xA2.

Definition PAG02H_OFFSET : Z := 0x02 * 0x80.
Definition QSFP_DD_TEMP_THRS_START_OFFSET : Z := PAG02H_OFFSET + 0x80.
Definition QSFP_DD_VOLT_THRS_START_OFFSET : Z := PAG02H_OFFSET + 0x88.
Definition QSFP_DD_TXPW_THRS_START_OFFSET : Z := PAG02H_OFFSET + 0xB0.
Definition QSFP_DD_TXBI_THRS_START_OFFSET : Z := PAG02H_OFFSET + 0xB8.
Definition QSFP_DD_RXPW_THRS_START_OFFSET : Z := PAG02H_OFFSET + 0xC0.

Definition PAG16H_OFFSET : Z := 0x03 * 0x80.

Definition PAG11H_OFFSET : Z := 0x04 * 0x80.
Definition QSFP_DD_TX_PWR_START_OFFSET : Z := PAG11H_OFFSET + 0x9A.
Definition QSFP_DD_TX_BIAS_START_OFFSET : Z := PAG11H_OFFSET + 0xAA.
Definition QSFP_DD_RX_PWR_START_OFFSET : Z := PAG11H_OFFSET + 0xBA.

Definition QSFP_DD_TX_HA_OFFSET : Z := PAG11H_OFFSET + 0x8B.
Definition QSFP_DD_TX_LA_OFFSET : Z := PAG11H_OFFSET + 0x8C.
Definition QSFP_DD_TX_HW_OFFSET : Z := PAG11H_OFFSET + 0x8D.
Definition QSFP_DD_TX_LW_OFFSET : Z := PAG11H_OFFSET + 0x8E.

Definition QSFP_DD_RX_HA_OFFSET : Z := PAG11H_OFFSET + 0x95.
Definition QSFP_DD_RX_LA_OFFSET : Z := PAG11H_OFFSET + 0x96.
Definition QSFP_DD_RX_HW_OFFSET : Z := PAG11H_OFFSET + 0x97.
Definition QSFP_DD_RX_LW_OFFSET : Z := PAG11H_OFFSET + 0x98.

(** ** Machine integers *)

(** Conversion to [__u8], [__u16] and [__s16]: the value modulo the
    width, the signed one taken in two's complement. *)
Definition to_u8 (x : Z) : Z := Z.land x 0xFF.
Definition to_u16 (x : Z) : Z := Z.land x 0xFFFF.
Definition to_s16 (x : Z) : Z :=
  let u := to_u16 x in if u <? 0x8000 then u else u - 0x10000.

(** Conversion to C [bool]: any non-zero value is [true]. *)
Definition to_bool (x : Z) : bool := negb (x =? 0).

(** ** IEEE 754 arithmetic

    The lengths are computed in C [float] (binary32) and the wavelengths
    in [double] (binary64); both are instances of the Standard Library's
    [spec_float] operations, with round to nearest even. *)

Module F32.
Definition prec : Z := 24.
Definition emax : Z := 128.
Definition of_Z (z : Z) : spec_float := binary_normalize prec emax z 0 false.
Definition mul (x y : spec_float) : spec_float := SFmul prec emax x y.
Definition div (x y : spec_float) : spec_float := SFdiv prec emax x y.
(** The literals [0.1f], [0.25f], [1.0f], [10.0f] and [100.0f]. *)
Definition c0_1 : spec_float := S754_finite false 13421773 (-27).
Definition c0_25 : spec_float := S754_finite false 8388608 (-25).
Definition c1 : spec_float := of_Z 1.
Definition c10 : spec_float := of_Z 10.
Definition c100 : spec_float := of_Z 100.
End F32.

Module F64.
Definition prec : Z := 53.
Definition emax : Z := 1024.
Definition of_Z (z : Z) : spec_float := binary_normalize prec emax z 0 false.
Definition mul (x y : spec_float) : spec_float := SFmul prec emax x y.
Definition div (x y : spec_float) : spec_float := SFdiv prec emax x y.
(** The literals [0.05] and [0.005]. *)
Definition c0_05 : spec_float := S754_finite false 7205759403792794 (-57).
Definition c0_005 : spec_float := S754_finite false 5764607523034235 (-60).
End F64.

(** The rational number a finite float stands for ([None] for the
    infinities and NaN). *)
Definition SF2Q (f : spec_float) : option Q :=
  match f with
  | S754_zero _ => Some 0%Q
  | S754_finite s m e =>
      let v := (inject_Z (Z.pos m) * Qpower 2 e)%Q in
      Some (if s then Qopp v else v)
  | _ => None
  end.

(** ** The module memory *)

Abbreviation eeprom := (list Z).

(** Every byte of a dump is in the range of [__u8]. *)
Definition wf_eeprom (id : eeprom) : Prop := Forall (fun b => 0 <= b < 256) id.

(** [id[off]]; [None] stands for a read outside the memory. *)
Definition rd (id : eeprom) (off : Z) : option Z :=
  if off <? 0 then None else id !! Z.to_nat off.

(** Modelled from the spec: the macro [OFFSET_TO_U16] of sff-common.h,
    which is not part of the sources at hand; the spec's [u16_be] takes
    two consecutive bytes, the most significant first. *)
Definition OFFSET_TO_U16 (id : eeprom) (offset : Z) : option Z :=
  hi ← rd id offset;
  lo ← rd id (offset + 1);
  Some (Z.lor (Z.shiftl hi 8) lo).

Definition OFFSET_TO_TEMP (id : eeprom) (offset : Z) : option Z :=
  to_s16 <$> OFFSET_TO_U16 id offset.

(** ** Cable assembly length and SMF length *)

Inductive cbl_len : Type :=
  | Len_over_6300m
  | Len_km (val : spec_float).

(** The multiplier selected by the [switch] of
    [qsfp_dd_show_cbl_asm_len]; [mul] starts as [1.0f]. *)
Definition cbl_asm_mul (b : Z) : spec_float :=
  let sel := Z.land b QSFP_DD_LEN_MUL_MASK in
  if sel =? QSFP_DD_MULTIPLIER_00 then F32.c0_1
  else if sel =? QSFP_DD_MULTIPLIER_01 then F32.c1
  else if sel =? QSFP_DD_MULTIPLIER_10 then F32.c10
  else if sel =? QSFP_DD_MULTIPLIER_11 then F32.c100
  else F32.c1.

(** The source indexes the same byte three times; the memory does not
    change in between, and the byte is read once here. *)
Definition qsfp_dd_show_cbl_asm_len (id : eeprom) : option cbl_len :=
  b ← rd id QSFP_DD_CBL_ASM_LEN_OFFSET;
  if b =? QSFP_DD_6300M_MAX_LEN then Some Len_over_6300m
  else
    let mul := cbl_asm_mul b in
    let val := F32.of_Z (Z.land b QSFP_DD_LEN_VAL_MASK) in
    Some (Len_km (F32.mul val mul)).

(** The multiplier selected by the [switch] of
    [qsfp_dd_print_smf_cbl_len]: two cases and the default. *)
Definition smf_mul (b : Z) : spec_float :=
  let sel := Z.land b QSFP_DD_LEN_MUL_MASK in
  if sel =? QSFP_DD_MULTIPLIER_00 then F32.c0_1
  else if sel =? QSFP_DD_MULTIPLIER_01 then F32.c1
  else F32.c1.

Definition qsfp_dd_print_smf_cbl_len (id : eeprom) : option spec_float :=
  b ← rd id QSFP_DD_SMF_LEN_OFFSET;
  let mul := smf_mul b in
  let val := F32.of_Z (Z.land b QSFP_DD_LEN_VAL_MASK) in
  Some (F32.mul val mul).

(** ** Media interface technology *)

(** The text printed by the [switch] of [qsfp_dd_show_mit_compliance],
    without its end of line; a code outside the table prints nothing. *)
Definition mit_name (tech : Z) : option string :=
  let cc := " (Copper cable,"%string in
  if tech =? QSFP_DD_850_VCSEL then Some " (850 nm VCSEL)"%string
  else if tech =? QSFP_DD_1310_VCSEL then Some " (1310 nm VCSEL)"%string
  else if tech =? QSFP_DD_1550_VCSEL then Some " (1550 nm VCSEL)"%string
  else if tech =? QSFP_DD_1310_FP then Some " (1310 nm FP)"%string
  else if tech =? QSFP_DD_1310_DFB then Some " (1310 nm DFB)"%string
  else if tech =? QSFP_DD_1550_DFB then Some " (1550 nm DFB)"%string
  else if tech =? QSFP_DD_1310_EML then Some " (1310 nm EML)"%string
  else if tech =? QSFP_DD_1550_EML then Some " (1550 nm EML)"%string
  else if tech =? QSFP_DD_OTHERS then Some " (Others/Undefined)"%string
  else if tech =? QSFP_DD_1490_DFB then Some " (1490 nm DFB)"%string
  else if tech =? QSFP_DD_COPPER_UNEQUAL
    then Some (cc +:+ " unequalized)")
  else if tech =? QSFP_DD_COPPER_PASS_EQUAL
    then Some (cc +:+ " passive equalized)")
  else if tech =? QSFP_DD_COPPER_NF_EQUAL
    then Some (cc +:+ " near and far end limiting active equalizers)")
  else if tech =? QSFP_DD_COPPER_F_EQUAL
    then Some (cc +:+ " far end limiting active equalizers)")
  else if tech =? QSFP_DD_COPPER_N_EQUAL
    then Some (cc +:+ " near end limiting active equalizers)")
  else if tech =? QSFP_DD_COPPER_LINEAR_EQUAL
    then Some (cc +:+ " linear active equalizers)")
  else None.

(** What follows the technology line: four attenuations in dB, or the
    laser wavelength and its tolerance in nm. *)
Inductive media_fields : Type :=
  | Attenuation (att_5ghz att_7ghz att_12p9ghz att_25p8ghz : Z)
  | Wavelength (nominal tolerance : spec_float).

Record mit_report : Type := {
  transmitter_technology : Z;
  technology_name : option string;
  media : media_fields
}.

Definition qsfp_dd_show_mit_compliance (id : eeprom) : option mit_report :=
  tech ← rd id QSFP_DD_MEDIA_INTF_TECH_OFFSET;
  fields ←
    (if QSFP_DD_COPPER_UNEQUAL <=? tech then
       a5 ← rd id QSFP_DD_COPPER_ATT_5GHZ;
       a7 ← rd id QSFP_DD_COPPER_ATT_7GHZ;
       a12 ← rd id QSFP_DD_COPPER_ATT_12P9GHZ;
       a25 ← rd id QSFP_DD_COPPER_ATT_25P8GHZ;
       Some (Attenuation a5 a7 a12 a25)
     else
       nom_msb ← rd id QSFP_DD_NOM_WAVELENGTH_MSB;
       nom_lsb ← rd id QSFP_DD_NOM_WAVELENGTH_LSB;
       tol_msb ← rd id QSFP_DD_WAVELENGTH_TOL_MSB;
       tol_lsb ← rd id QSFP_DD_WAVELENGTH_TOL_LSB;
       Some (Wavelength
               (F64.mul (F64.of_Z (Z.lor (Z.shiftl nom_msb 8) nom_lsb))
                        F64.c0_05)
               (F64.mul (F64.of_Z (Z.lor (Z.shiftl tol_msb 8) tol_lsb))
                        F64.c0_005)));
  Some {| transmitter_technology := tech;
          technology_name := mit_name tech;
          media := fields |}.

(** ** The diagnostics structures *)

Module qsfp_dd_channel_diags.
Record t : Type := mk {
  bias_cur : Z;
  rx_power : Z;
  tx_power : Z
}.
Definition zero : t := mk 0 0 0.
Definition set_bias_cur (v : Z) (c : t) : t := mk v (rx_power c) (tx_power c).
Definition set_rx_power (v : Z) (c : t) : t := mk (bias_cur c) v (tx_power c).
Definition set_tx_power (v : Z) (c : t) : t := mk (bias_cur c) (rx_power c) v.
End qsfp_dd_channel_diags.

Record qsfp_dd_diags : Type := mk_diags {
  sfp_voltage : list Z;
  sfp_temp : list Z;
  bias_cur : list Z;
  tx_power : list Z;
  rx_power : list Z;
  rxaw : list (list bool);
  txaw : list (list bool);
  scd : list qsfp_dd_channel_diags.t
}.

(** [struct qsfp_dd_diags sd = { { 0 } }]. *)
Definition sd_zero : qsfp_dd_diags := {|
  sfp_voltage := replicate 4 0;
  sfp_temp := replicate 4 0;
  bias_cur := replicate 4 0;
  tx_power := replicate 4 0;
  rx_power := replicate 4 0;
  rxaw := replicate 8 (replicate 4 false);
  txaw := replicate 8 (replicate 4 false);
  scd := replicate 8 qsfp_dd_channel_diags.zero
|}.

Definition upd_sfp_voltage (f : list Z → list Z) (sd : qsfp_dd_diags) :=
  mk_diags (f (sfp_voltage sd)) (sfp_temp sd) (bias_cur sd) (tx_power sd)
           (rx_power sd) (rxaw sd) (txaw sd) (scd sd).
Definition upd_sfp_temp (f : list Z → list Z) (sd : qsfp_dd_diags) :=
  mk_diags (sfp_voltage sd) (f (sfp_temp sd)) (bias_cur sd) (tx_power sd)
           (rx_power sd) (rxaw sd) (txaw sd) (scd sd).
Definition upd_bias_cur (f : list Z → list Z) (sd : qsfp_dd_diags) :=
  mk_diags (sfp_voltage sd) (sfp_temp sd) (f (bias_cur sd)) (tx_power sd)
           (rx_power sd) (rxaw sd) (txaw sd) (scd sd).
Definition upd_tx_power (f : list Z → list Z) (sd : qsfp_dd_diags) :=
  mk_diags (sfp_voltage sd) (sfp_temp sd) (bias_cur sd) (f (tx_power sd))
           (rx_power sd) (rxaw sd) (txaw sd) (scd sd).
Definition upd_rx_power (f : list Z → list Z) (sd : qsfp_dd_diags) :=
  mk_diags (sfp_voltage sd) (sfp_temp sd) (bias_cur sd) (tx_power sd)
           (f (rx_power sd)) (rxaw sd) (txaw sd) (scd sd).
Definition upd_rxaw (f : list (list bool) → list (list bool))
    (sd : qsfp_dd_diags) :=
  mk_diags (sfp_voltage sd) (sfp_temp sd) (bias_cur sd) (tx_power sd)
           (rx_power sd) (f (rxaw sd)) (txaw sd) (scd sd).
Definition upd_txaw (f : list (list bool) → list (list bool))
    (sd : qsfp_dd_diags) :=
  mk_diags (sfp_voltage sd) (sfp_temp sd) (bias_cur sd) (tx_power sd)
           (rx_power sd) (rxaw sd) (f (txaw sd)) (scd sd).
Definition upd_scd
    (f : list qsfp_dd_channel_diags.t → list qsfp_dd_channel_diags.t)
    (sd : qsfp_dd_diags) :=
  mk_diags (sfp_voltage sd) (sfp_temp sd) (bias_cur sd) (tx_power sd)
           (rx_power sd) (rxaw sd) (txaw sd) (f (scd sd)).

(** [aw[ch][cls] = v]. *)
Definition set_aw (ch : Z) (cls : nat) (v : bool)
    (aw : list (list bool)) : list (list bool) :=
  alter (<[cls := v]>) (Z.to_nat ch) aw.

(** [for (i = lo; i < lo + n; ++i) body], threading the state. *)
Fixpoint for_loop {S : Type} (n : nat) (i : Z)
    (body : Z → S → option S) (s : S) : option S :=
  match n with
  | O => Some s
  | Datatypes.S n' => s' ← body i s; for_loop n' (i + 1) body s'
  end.

(** ** Alarms and warnings of one channel *)

Definition qsfp_dd_read_aw_for_channel (id : eeprom) (ch : Z) (mode : Z)
    (sd : qsfp_dd_diags) : option qsfp_dd_diags :=
  let cmsk := to_u8 (Z.shiftl 1 ch) in
  if mode =? QSFP_DD_READ_TX then
    ha ← rd id QSFP_DD_TX_HA_OFFSET;
    sd ← Some (upd_txaw (set_aw ch HA (to_bool (Z.land ha cmsk))) sd);
    la ← rd id QSFP_DD_TX_LA_OFFSET;
    sd ← Some (upd_txaw (set_aw ch LA (to_bool (Z.land la cmsk))) sd);
    hw ← rd id QSFP_DD_TX_HW_OFFSET;
    sd ← Some (upd_txaw (set_aw ch HW (to_bool (Z.land hw cmsk))) sd);
    lw ← rd id QSFP_DD_TX_LW_OFFSET;
    Some (upd_txaw (set_aw ch LW (to_bool (Z.land lw cmsk))) sd)
  else
    ha ← rd id QSFP_DD_RX_HA_OFFSET;
    sd ← Some (upd_rxaw (set_aw ch HA (to_bool (Z.land ha cmsk))) sd);
    la ← rd id QSFP_DD_RX_LA_OFFSET;
    sd ← Some (upd_rxaw (set_aw ch LA (to_bool (Z.land la cmsk))) sd);
    hw ← rd id QSFP_DD_RX_HW_OFFSET;
    sd ← Some (upd_rxaw (set_aw ch HW (to_bool (Z.land hw cmsk))) sd);
    lw ← rd id QSFP_DD_RX_LW_OFFSET;
    Some (upd_rxaw (set_aw ch LW (to_bool (Z.land lw cmsk))) sd).

(** ** Parsing the diagnostics pages *)

(** Body of the loop over the channels. *)
Definition parse_channel (id : eeprom) (i : Z) (sd : qsfp_dd_diags)
    : option qsfp_dd_diags :=
  let tx_bias_offset := to_u16 (QSFP_DD_TX_BIAS_START_OFFSET + Z.shiftl i 1) in
  let rx_power_offset := to_u16 (QSFP_DD_RX_PWR_START_OFFSET + Z.shiftl i 1) in
  let tx_power_offset := to_u16 (QSFP_DD_TX_PWR_START_OFFSET + Z.shiftl i 1) in
  v ← OFFSET_TO_U16 id tx_bias_offset;
  sd ← Some (upd_scd (alter (qsfp_dd_channel_diags.set_bias_cur (to_u16 v))
                            (Z.to_nat i)) sd);
  v ← OFFSET_TO_U16 id rx_power_offset;
  sd ← Some (upd_scd (alter (qsfp_dd_channel_diags.set_rx_power (to_u16 v))
                            (Z.to_nat i)) sd);
  v ← OFFSET_TO_U16 id tx_power_offset;
  sd ← Some (upd_scd (alter (qsfp_dd_channel_diags.set_tx_power (to_u16 v))
                            (Z.to_nat i)) sd);
  sd ← qsfp_dd_read_aw_for_channel id i QSFP_DD_READ_TX sd;
  qsfp_dd_read_aw_for_channel id i QSFP_DD_READ_RX sd.

(** Body of the loop over the threshold classes HA, LA, HW, LW. *)
Definition parse_threshold (id : eeprom) (i : Z) (sd : qsfp_dd_diags)
    : option qsfp_dd_diags :=
  let tx_power_offset := to_u16 (QSFP_DD_TXPW_THRS_START_OFFSET + Z.shiftl i 1) in
  v ← OFFSET_TO_U16 id tx_power_offset;
  sd ← Some (upd_tx_power (<[Z.to_nat i := to_u16 v]>) sd);
  let rx_power_offset := to_u16 (QSFP_DD_RXPW_THRS_START_OFFSET + Z.shiftl i 1) in
  v ← OFFSET_TO_U16 id rx_power_offset;
  sd ← Some (upd_rx_power (<[Z.to_nat i := to_u16 v]>) sd);
  let tx_bias_offset := to_u16 (QSFP_DD_TXBI_THRS_START_OFFSET + Z.shiftl i 1) in
  v ← OFFSET_TO_U16 id tx_bias_offset;
  sd ← Some (upd_bias_cur (<[Z.to_nat i := to_u16 v]>) sd);
  let temp_offset := to_u16 (QSFP_DD_TEMP_THRS_START_OFFSET + Z.shiftl i 1) in
  v ← OFFSET_TO_TEMP id temp_offset;
  sd ← Some (upd_sfp_temp (<[Z.to_nat i := v]>) sd);
  let volt_offset := to_u16 (QSFP_DD_VOLT_THRS_START_OFFSET + Z.shiftl i 1) in
  v ← OFFSET_TO_U16 id volt_offset;
  Some (upd_sfp_voltage (<[Z.to_nat i := to_u16 v]>) sd).

Definition qsfp_dd_parse_diagnostics (id : eeprom) (sd : qsfp_dd_diags)
    : option qsfp_dd_diags :=
  sd ← for_loop (Z.to_nat QSFP_DD_MAX_CHANNELS) 0 (parse_channel id) sd;
  for_loop 4 0 (parse_threshold id) sd.

(** ** The optical power report *)

(** The values printed after the gate: the three monitors of the eight
    channels, the alarm and warning lines labelled Rx and Tx, and the
    structure handed to [qsfp_dd_show_thresholds].  Both groups of
    alarm lines are printed from [sd.rxaw], as the source has it. *)
Record diag_lines : Type := {
  tx_bias_monitor : list Z;
  tx_output_power : list Z;
  rx_input_power : list Z;
  rx_aw_lines : list (list bool);
  tx_aw_lines : list (list bool);
  thresholds : qsfp_dd_diags
}.

Record optical_pwr_report : Type := {
  module_temperature : Z;
  module_voltage : Z;
  diagnostics : option diag_lines
}.

Definition show_diag_lines (sd : qsfp_dd_diags) : diag_lines := {|
  tx_bias_monitor := qsfp_dd_channel_diags.bias_cur <$> scd sd;
  tx_output_power := qsfp_dd_channel_diags.tx_power <$> scd sd;
  rx_input_power := qsfp_dd_channel_diags.rx_power <$> scd sd;
  rx_aw_lines := rxaw sd;
  tx_aw_lines := rxaw sd;
  thresholds := sd
|}.

Definition qsfp_dd_show_sig_optical_pwr (id : eeprom) (eeprom_len : Z)
    : option optical_pwr_report :=
  module_type ← to_u8 <$> rd id QSFP_DD_MODULE_TYPE_OFFSET;
  temp ← OFFSET_TO_TEMP id QSFP_DD_CURR_TEMP_OFFSET;
  vcc ← OFFSET_TO_U16 id QSFP_DD_CURR_CURR_OFFSET;
  if negb (module_type =? QSFP_DD_MT_MMF)
     && negb (module_type =? QSFP_DD_MT_SMF)
     && negb (eeprom_len =? QSFP_DD_EEPROM_5PAG)
  then
    Some {| module_temperature := temp;
            module_voltage := vcc;
            diagnostics := None |}
  else
    sd ← qsfp_dd_parse_diagnostics id sd_zero;
    Some {| module_temperature := temp;
            module_voltage := vcc;
            diagnostics := Some (show_diag_lines sd) |}.

(** Modelled from the spec: the macro [PRINT_TEMP] of sff-common.h,
    which is not part of the sources at hand; the spec gives the
    temperature as 1/256 degree Celsius per unit, and the value is
    printed as a [double]. *)
Definition PRINT_TEMP (temp : Z) : spec_float :=
  F64.div (F64.of_Z temp) (F64.of_Z 256).

(** ** Revision, power and signal integrity *)

Definition YESNO (x : Z) : bool := negb (x =? 0).

(** Major and minor revision. *)
Definition qsfp_dd_show_rev_compliance (id : eeprom) : option (Z * Z) :=
  rev ← to_u8 <$> rd id QSFP_DD_REV_COMPLIANCE_OFFSET;
  let major := Z.land (Z.shiftr rev 4) 0x0F in
  let minor := Z.land rev 0x0F in
  Some (major, minor).

(** The power class as printed (1 to 8) and the maximum power in W. *)
Definition qsfp_dd_show_power_info (id : eeprom) : option (Z * spec_float) :=
  b ← rd id QSFP_DD_PWR_CLASS_OFFSET;
  let power_class := to_u8 (Z.land (Z.shiftr b 5) 0x07) in
  base_power ← to_u8 <$> rd id QSFP_DD_PWR_MAX_POWER_OFFSET;
  let max_power := F32.mul (F32.of_Z base_power) F32.c0_25 in
  Some (power_class + 1, max_power).

Record sig_integrity_report : Type := {
  tx_cdr_bypass_control : bool;
  rx_cdr_bypass_control : bool;
  tx_cdr : bool;
  rx_cdr : bool
}.

Definition qsfp_dd_show_sig_integrity (id : eeprom)
    : option sig_integrity_report :=
  tx ← rd id QSFP_DD_SIG_INTEG_TX_OFFSET;
  rx ← rd id QSFP_DD_SIG_INTEG_RX_OFFSET;
  Some {| tx_cdr_bypass_control := YESNO (Z.land tx 0x02);
          rx_cdr_bypass_control := YESNO (Z.land rx 0x02);
          tx_cdr := YESNO (Z.land tx 0x01);
          rx_cdr := YESNO (Z.land rx 0x01) |}.

(** ** The whole report

    The printers of sff-common.c are not part of the sources at hand;
    [qsfp_dd_show_all] is modelled over whatever they show. *)

Section ShowAll.

Context {ext : Type}.
Variable sff8024_show_identifier : eeprom → Z → option ext.
Variable sff8024_show_connector : eeprom → Z → option ext.
Variable sff8024_show_oui : eeprom → Z → option ext.
Variable sff_show_value_with_unit :
  eeprom → Z → string → Z → string → option ext.
Variable sff_show_ascii : eeprom → Z → Z → string → option ext.

Definition qsfp_dd_show_identifier (id : eeprom) : option ext :=
  sff8024_show_identifier id QSFP_DD_ID_OFFSET.

Definition qsfp_dd_show_connector (id : eeprom) : option ext :=
  sff8024_show_connector id QSFP_DD_CTOR_OFFSET.

Definition qsfp_dd_show_oui (id : eeprom) : option ext :=
  sff8024_show_oui id QSFP_DD_VENDOR_OUI_OFFSET.

Definition qsfp_dd_show_link_len (id : eeprom)
    : option (spec_float * list ext) :=
  smf ← qsfp_dd_print_smf_cbl_len id;
  om5 ← sff_show_value_with_unit id QSFP_DD_OM5_LEN_OFFSET "Length (OM5)" 2 "m";
  om4 ← sff_show_value_with_unit id QSFP_DD_OM4_LEN_OFFSET "Length (OM4)" 2 "m";
  om3 ← sff_show_value_with_unit id QSFP_DD_OM3_LEN_OFFSET
          "Length (OM3 50/125um)" 2 "m";
  om2 ← sff_show_value_with_unit id QSFP_DD_OM2_LEN_OFFSET
          "Length (OM2 50/125um)" 1 "m";
  Some (smf, [om5; om4; om3; om2]).

Definition qsfp_dd_show_vendor_info (id : eeprom) : option (list ext) :=
  name ← sff_show_ascii id QSFP_DD_VENDOR_NAME_START_OFFSET
           QSFP_DD_VENDOR_NAME_END_OFFSET "Vendor name";
  oui ← qsfp_dd_show_oui id;
  pn ← sff_show_ascii id QSFP_DD_VENDOR_PN_START_OFFSET
         QSFP_DD_VENDOR_PN_END_OFFSET "Vendor PN";
  rev ← sff_show_ascii id QSFP_DD_VENDOR_REV_START_OFFSET
          QSFP_DD_VENDOR_REV_END_OFFSET "Vendor rev";
  sn ← sff_show_ascii id QSFP_DD_VENDOR_SN_START_OFFSET
         QSFP_DD_VENDOR_SN_END_OFFSET "Vendor SN";
  date ← sff_show_ascii id QSFP_DD_DATE_YEAR_OFFSET
           (QSFP_DD_DATE_VENDOR_LOT_OFFSET + 1) "Date code";
  present ← rd id QSFP_DD_CLEI_PRESENT_BYTE;
  if negb (Z.land present QSFP_DD_CLEI_PRESENT_MASK =? 0) then
    clei ← sff_show_ascii id QSFP_DD_CLEI_START_OFFSET
             QSFP_DD_CLEI_END_OFFSET "CLEI code";
    Some [name; oui; pn; rev; sn; date; clei]
  else Some [name; oui; pn; rev; sn; date].

Record report : Type := {
  identifier : ext;
  power_info : Z * spec_float;
  connector : ext;
  cbl_asm_len : cbl_len;
  sig_integrity : sig_integrity_report;
  mit_compliance : mit_report;
  sig_optical_pwr : optical_pwr_report;
  link_len : spec_float * list ext;
  vendor_info : list ext;
  rev_compliance : Z * Z
}.

Definition qsfp_dd_show_all (id : eeprom) (eeprom_len : Z) : option report :=
  r_id ← qsfp_dd_show_identifier id;
  r_power ← qsfp_dd_show_power_info id;
  r_ctor ← qsfp_dd_show_connector id;
  r_len ← qsfp_dd_show_cbl_asm_len id;
  r_sig ← qsfp_dd_show_sig_integrity id;
  r_mit ← qsfp_dd_show_mit_compliance id;
  r_pwr ← qsfp_dd_show_sig_optical_pwr id eeprom_len;
  r_link ← qsfp_dd_show_link_len id;
  r_vendor ← qsfp_dd_show_vendor_info id;
  r_rev ← qsfp_dd_show_rev_compliance id;
  Some {| identifier := r_id; power_info := r_power; connector := r_ctor;
          cbl_asm_len := r_len; sig_integrity := r_sig;
          mit_compliance := r_mit; sig_optical_pwr := r_pwr;
          link_len := r_link; vendor_info := r_vendor;
          rev_compliance := r_rev |}.

End ShowAll.

(** ** The threshold lines *)

(** The macro of sff-common.h a line is printed with: [PRINT_BIAS],
    [PRINT_xX_PWR], [PRINT_TEMP] or [PRINT_VCC]. *)
Inductive print_macro : Type := BIAS | xX_PWR | TEMP | VCC.

(** The twenty lines of [qsfp_dd_show_thresholds], in the order of the
    source: macro, label and the array entry handed to the macro.  The
    arrays have four entries and the indices are constants below four. *)
Definition qsfp_dd_show_thresholds (sd : qsfp_dd_diags)
    : list (print_macro * string * Z) :=
  [ (BIAS, "Laser bias current high alarm threshold", bias_cur sd !!! HA);
    (BIAS, "Laser bias current low alarm threshold", bias_cur sd !!! LA);
    (BIAS, "Laser bias current high warning threshold", bias_cur sd !!! HW);
    (BIAS, "Laser bias current low warning threshold", bias_cur sd !!! LW);
    (xX_PWR, "Laser output power high alarm threshold", tx_power sd !!! HA);
    (xX_PWR, "Laser output power low alarm threshold", tx_power sd !!! LA);
    (xX_PWR, "Laser output power high warning threshold", tx_power sd !!! HW);
    (xX_PWR, "Laser output power low warning threshold", tx_power sd !!! LW);
    (TEMP, "Module temperature high alarm threshold", sfp_temp sd !!! HA);
    (TEMP, "Module temperature low alarm threshold", sfp_temp sd !!! LA);
    (TEMP, "Module temperature high warning threshold", sfp_temp sd !!! HW);
    (TEMP, "Module temperature low warning threshold", sfp_temp sd !!! LW);
    (VCC, "Module voltage high alarm threshold", sfp_voltage sd !!! HA);
    (VCC, "Module voltage low alarm threshold", sfp_voltage sd !!! LA);
    (VCC, "Module voltage high warning threshold", sfp_voltage sd !!! HW);
    (VCC, "Module voltage low warning threshold", sfp_voltage sd !!! LW);
    (xX_PWR, "Laser rx power high alarm threshold", rx_power sd !!! HA);
    (xX_PWR, "Laser rx power low alarm threshold", rx_power sd !!! LA);
    (xX_PWR, "Laser rx power high warning threshold", rx_power sd !!! HW);
    (xX_PWR, "Laser rx power low warning threshold", rx_power sd !!! LW) ].

(** * Notions used in the statements *)

(** The byte at [off], zero where the memory has none. *)
Definition byte_at (id : eeprom) (off : Z) : Z := default 0 (rd id off).

(** The spec's [u16_be]: two consecutive bytes, the most significant
    first. *)
Definition u16_be (id : eeprom) (off : Z) : Z :=
  256 * byte_at id off + byte_at id (off + 1).

Definition all_bytes : list Z := Z.of_nat <$> seq 0 256.

#[local] Instance spec_float_eq_dec : EqDecision spec_float.
Proof. solve_decision. Defined.

#[local] Instance cbl_len_eq_dec : EqDecision cbl_len.
Proof. solve_decision. Defined.

(** [f] is finite and stands for the integer [z]. *)
Definition SF_is_Z (f : spec_float) (z : Z) : bool :=
  match SF2Q f with
  | Some q => Qeq_bool q (inject_Z z)
  | None => false
  end.

(** The spec's scale table, indexed by the two-bit multiplier code. *)
Definition spec_scale (code : Z) : spec_float :=
  if code =? 0 then F32.c0_1
  else if code =? 1 then F32.c1
  else if code =? 2 then F32.c10
  else F32.c100.

(** The integer a scale of the table stands for, where it has one. *)
Definition spec_scale_Z (code : Z) : Z :=
  if code =? 1 then 1 else if code =? 2 then 10 else 100.

(** The length byte made of a multiplier code and a magnitude. *)
Definition len_byte (code magnitude : Z) : Z :=
  Z.lor (Z.shiftl code 6) magnitude.

(** What every length byte other than the sentinel decodes to. *)
Definition cbl_asm_len_ok (b : Z) : Prop :=
  b ≠ QSFP_DD_6300M_MAX_LEN →
  let m := Z.land b QSFP_DD_LEN_VAL_MASK in
  let code := Z.shiftr b 6 in
  len_byte code m = b ∧
  cbl_asm_mul b = spec_scale code ∧
  (code ≠ 0 →
   SF_is_Z (F32.mul (F32.of_Z m) (spec_scale code)) (m * spec_scale_Z code)
   = true).

#[local] Instance cbl_asm_len_ok_dec b : Decision (cbl_asm_len_ok b).
Proof. unfold cbl_asm_len_ok. apply _. Defined.

(** What a length byte means to the SMF decoder, next to the cable
    assembly decoder. *)
Definition smf_len_ok (b : Z) : Prop :=
  let m := Z.land b QSFP_DD_LEN_VAL_MASK in
  let code := Z.shiftr b 6 in
  let v := F32.mul (F32.of_Z m) (smf_mul b) in
  (code = 0 → smf_mul b = F32.c0_1) ∧
  (code = 1 → smf_mul b = F32.c1) ∧
  (2 <= code →
   smf_mul b = F32.c1 ∧ SF_is_Z v m = true ∧
   (m ≠ 0 → v ≠ F32.mul (F32.of_Z m) F32.c10 ∧
            v ≠ F32.mul (F32.of_Z m) F32.c100)) ∧
  (code = 2 → cbl_asm_mul b = F32.c10) ∧
  (code = 3 → cbl_asm_mul b = F32.c100).

#[local] Instance smf_len_ok_dec b : Decision (smf_len_ok b).
Proof. unfold smf_len_ok. apply _. Defined.

(** The loop whose body cannot fail. *)
Fixpoint for_pure {S : Type} (n : nat) (i : Z) (f : Z → S → S) (s : S) : S :=
  match n with
  | O => s
  | Datatypes.S n' => for_pure n' (i + 1) f (f i s)
  end.

(** The big-endian pair at [off], as [OFFSET_TO_U16] joins it. *)
Definition pair_at (id : eeprom) (off : Z) : Z :=
  Z.lor (Z.shiftl (byte_at id off) 8) (byte_at id (off + 1)).

(** Bit [ch] of the alarm byte at [off], as a flag. *)
Definition aw_bit (id : eeprom) (off ch : Z) : bool :=
  to_bool (Z.land (byte_at id off) (to_u8 (Z.shiftl 1 ch))).

(** One turn of the channel loop with every read in range. *)
Definition channel_spec (id : eeprom) (i : Z) (sd : qsfp_dd_diags)
    : qsfp_dd_diags :=
  let tx_bias_offset := to_u16 (QSFP_DD_TX_BIAS_START_OFFSET + Z.shiftl i 1) in
  let rx_power_offset := to_u16 (QSFP_DD_RX_PWR_START_OFFSET + Z.shiftl i 1) in
  let tx_power_offset := to_u16 (QSFP_DD_TX_PWR_START_OFFSET + Z.shiftl i 1) in
  let sd := upd_scd (alter (qsfp_dd_channel_diags.set_bias_cur
                              (to_u16 (pair_at id tx_bias_offset)))
                           (Z.to_nat i)) sd in
  let sd := upd_scd (alter (qsfp_dd_channel_diags.set_rx_power
                              (to_u16 (pair_at id rx_power_offset)))
                           (Z.to_nat i)) sd in
  let sd := upd_scd (alter (qsfp_dd_channel_diags.set_tx_power
                              (to_u16 (pair_at id tx_power_offset)))
                           (Z.to_nat i)) sd in
  let sd := upd_txaw (set_aw i HA (aw_bit id QSFP_DD_TX_HA_OFFSET i)) sd in
  let sd := upd_txaw (set_aw i LA (aw_bit id QSFP_DD_TX_LA_OFFSET i)) sd in
  let sd := upd_txaw (set_aw i HW (aw_bit id QSFP_DD_TX_HW_OFFSET i)) sd in
  let sd := upd_txaw (set_aw i LW (aw_bit id QSFP_DD_TX_LW_OFFSET i)) sd in
  let sd := upd_rxaw (set_aw i HA (aw_bit id QSFP_DD_RX_HA_OFFSET i)) sd in
  let sd := upd_rxaw (set_aw i LA (aw_bit id QSFP_DD_RX_LA_OFFSET i)) sd in
  let sd := upd_rxaw (set_aw i HW (aw_bit id QSFP_DD_RX_HW_OFFSET i)) sd in
  upd_rxaw (set_aw i LW (aw_bit id QSFP_DD_RX_LW_OFFSET i)) sd.

(** One turn of the threshold loop with every read in range. *)
Definition threshold_spec (id : eeprom) (i : Z) (sd : qsfp_dd_diags)
    : qsfp_dd_diags :=
  let tx_power_offset := to_u16 (QSFP_DD_TXPW_THRS_START_OFFSET + Z.shiftl i 1) in
  let sd := upd_tx_power (<[Z.to_nat i := to_u16 (pair_at id tx_power_offset)]>)
                         sd in
  let rx_power_offset := to_u16 (QSFP_DD_RXPW_THRS_START_OFFSET + Z.shiftl i 1) in
  let sd := upd_rx_power (<[Z.to_nat i := to_u16 (pair_at id rx_power_offset)]>)
                         sd in
  let tx_bias_offset := to_u16 (QSFP_DD_TXBI_THRS_START_OFFSET + Z.shiftl i 1) in
  let sd := upd_bias_cur (<[Z.to_nat i := to_u16 (pair_at id tx_bias_offset)]>)
                         sd in
  let temp_offset := to_u16 (QSFP_DD_TEMP_THRS_START_OFFSET + Z.shiftl i 1) in
  let sd := upd_sfp_temp (<[Z.to_nat i := to_s16 (pair_at id temp_offset)]>)
                         sd in
  let volt_offset := to_u16 (QSFP_DD_VOLT_THRS_START_OFFSET + Z.shiftl i 1) in
  upd_sfp_voltage (<[Z.to_nat i := to_u16 (pair_at id volt_offset)]>) sd.

(** The structure left by [qsfp_dd_parse_diagnostics] when the memory
    holds all it reads. *)
Definition diags_spec (id : eeprom) (sd : qsfp_dd_diags) : qsfp_dd_diags :=
  for_pure 4 0 (threshold_spec id) (for_pure 8 0 (channel_spec id) sd).

(** The last offset the parse reads is 0x2C9 = 713: the low byte of the
    receive power of channel 8. *)
Definition DIAG_BYTES : nat := 714.

(** The indices of the channels and of the threshold classes. *)
Definition lanes : list Z := [0; 1; 2; 3; 4; 5; 6; 7].
Definition classes : list Z := [0; 1; 2; 3].

(** The condition under which [qsfp_dd_show_sig_optical_pwr] returns
    before the parse. *)
Definition gate_returns (module_type eeprom_len : Z) : bool :=
  negb (module_type =? QSFP_DD_MT_MMF)
  && negb (module_type =? QSFP_DD_MT_SMF)
  && negb (eeprom_len =? QSFP_DD_EEPROM_5PAG).

(** The last offset read before the gate is the module type, 0x55. *)
Definition PAGE0_BYTES : nat := 86.

(** A passive copper module dumped with all six pages. *)
Definition copper_768 : eeprom := <[85%nat := 0x03]> (replicate 768 0).

(** An MMF module dumped with page 0 only. *)
Definition mmf_256 : eeprom := <[85%nat := QSFP_DD_MT_MMF]> (replicate 256 0).

(** [v] is the big-endian number of the two bytes at [off] and
    [off + 1], both inside the memory. *)
Definition be16_at (id : eeprom) (off v : Z) : Prop :=
  ∃ hi lo, rd id off = Some hi ∧ rd id (off + 1) = Some lo ∧ v = 256 * hi + lo.

(** A dump of an SMF module: temperature bytes 0x19 0x80, bias of the
    first lane 0x12 0x34, the rest zero. *)
Definition smf_768 : eeprom :=
  <[85%nat := QSFP_DD_MT_SMF]> (<[14%nat := 0x19]> (<[15%nat := 0x80]>
    (<[682%nat := 0x12]> (<[683%nat := 0x34]> (replicate 768 0))))).

(** [f] is finite and stands for the rational [q]. *)
Definition SF_is_Q (f : spec_float) (q : Q) : bool :=
  match SF2Q f with
  | Some q' => Qeq_bool q' q
  | None => false
  end.

(** An SMF module dumped with page 0 only, the temperature bytes being
    0x19 0x80. *)
Definition smf_256 : eeprom :=
  <[85%nat := QSFP_DD_MT_SMF]>
    (<[14%nat := 0x19]> (<[15%nat := 0x80]> (replicate 256 0))).

Inductive direction : Type := Tx | Rx.

#[local] Instance direction_eq_dec : EqDecision direction.
Proof. solve_decision. Defined.

(** The alarm-class byte of a direction and a class (HA, LA, HW, LW). *)
Definition aw_offset (d : direction) (cls : nat) : Z :=
  match d, cls with
  | Tx, 0%nat => QSFP_DD_TX_HA_OFFSET
  | Tx, 1%nat => QSFP_DD_TX_LA_OFFSET
  | Tx, 2%nat => QSFP_DD_TX_HW_OFFSET
  | Tx, _ => QSFP_DD_TX_LW_OFFSET
  | Rx, 0%nat => QSFP_DD_RX_HA_OFFSET
  | Rx, 1%nat => QSFP_DD_RX_LA_OFFSET
  | Rx, 2%nat => QSFP_DD_RX_HW_OFFSET
  | Rx, _ => QSFP_DD_RX_LW_OFFSET
  end.

(** [sd.txaw[ch][cls]] or [sd.rxaw[ch][cls]]. *)
Definition aw_flag (sd : qsfp_dd_diags) (d : direction) (ch cls : nat)
    : option bool :=
  row ← match d with Tx => txaw sd | Rx => rxaw sd end !! ch;
  row !! cls.

(** The memory with bit [k] of the byte at [off] inverted. *)
Definition flip_bit (id : eeprom) (off k : Z) : eeprom :=
  alter (λ b, Z.lxor b (Z.shiftl 1 k)) (Z.to_nat off) id.

(** [f] is finite and within [eps] of the rational [q]. *)
Definition SF_near (f : spec_float) (q eps : Q) : bool :=
  match SF2Q f with
  | Some q' => Qle_bool (q' - q) eps && Qle_bool (q - q') eps
  | None => false
  end.

(** [f] is finite and lies between [lo] and [hi]. *)
Definition SF_between (f : spec_float) (lo hi : Q) : bool :=
  match SF2Q f with
  | Some q => Qle_bool lo q && Qle_bool q hi
  | None => false
  end.

(** What the revision byte decodes to. *)
Definition rev_ok (b : Z) : Prop :=
  let major := Z.land (Z.shiftr (to_u8 b) 4) 0x0F in
  let minor := Z.land (to_u8 b) 0x0F in
  0 <= major < 16 ∧ 0 <= minor < 16 ∧ 16 * major + minor = b.

#[local] Instance rev_ok_dec b : Decision (rev_ok b).
Proof. unfold rev_ok. apply _. Defined.

(** What the power class byte and the maximum power byte decode to. *)
Definition power_ok (b : Z) : Prop :=
  let class := to_u8 (Z.land (Z.shiftr b 5) 0x07) + 1 in
  1 <= class <= 8 ∧ class = b / 32 + 1 ∧
  SF_is_Q (F32.mul (F32.of_Z (to_u8 b)) F32.c0_25) (b # 4) = true.

#[local] Instance power_ok_dec b : Decision (power_ok b).
Proof. unfold power_ok. apply _. Defined.

(** The exact length a byte encodes, in tenths: the magnitude times
    1, 10, 100 or 1000. *)
Definition len_tenths (b : Z) : Z :=
  Z.land b QSFP_DD_LEN_VAL_MASK * 10 ^ Z.shiftr b 6.

(** What a length byte other than the sentinel decodes to, as a
    number. *)
Definition cbl_asm_len_near (b : Z) : Prop :=
  b ≠ QSFP_DD_6300M_MAX_LEN →
  let v := F32.mul (F32.of_Z (Z.land b QSFP_DD_LEN_VAL_MASK)) (cbl_asm_mul b) in
  SF_near v (len_tenths b # 10) (1 # 1000000) = true ∧
  SF_between v 0 6200 = true ∧
  (v = S754_zero false ↔ Z.land b QSFP_DD_LEN_VAL_MASK = 0).

#[local] Instance cbl_asm_len_near_dec b : Decision (cbl_asm_len_near b).
Proof. unfold cbl_asm_len_near. apply _. Defined.

(** Where the two length decoders give the same length. *)
Definition smf_agrees (b : Z) : Prop :=
  b ≠ QSFP_DD_6300M_MAX_LEN →
  let m := Z.land b QSFP_DD_LEN_VAL_MASK in
  F32.mul (F32.of_Z m) (smf_mul b) = F32.mul (F32.of_Z m) (cbl_asm_mul b)
  ↔ Z.shiftr b 6 <= 1 ∨ m = 0.

#[local] Instance smf_agrees_dec b : Decision (smf_agrees b).
Proof. unfold smf_agrees. apply _. Defined.

(** The name of a technology is one of the copper cable names. *)
Definition is_copper_name (name : option string) : bool :=
  match name with
  | Some s => String.prefix " (Copper cable," s
  | None => false
  end.

(** How the name table of the technology codes lies around the copper
    threshold. *)
Definition mit_name_ok (tech : Z) : Prop :=
  (mit_name tech = None ↔ QSFP_DD_COPPER_LINEAR_EQUAL < tech) ∧
  (is_copper_name (mit_name tech) = true ↔
   QSFP_DD_COPPER_UNEQUAL <= tech <= QSFP_DD_COPPER_LINEAR_EQUAL).

#[local] Instance mit_name_ok_dec tech : Decision (mit_name_ok tech).
Proof. unfold mit_name_ok. apply _. Defined.

(** The arrays of the structure have the sizes of their declaration. *)
Record sd_shape (sd : qsfp_dd_diags) : Prop := {
  shape_sfp_voltage : length (sfp_voltage sd) = 4%nat;
  shape_sfp_temp : length (sfp_temp sd) = 4%nat;
  shape_bias_cur : length (bias_cur sd) = 4%nat;
  shape_tx_power : length (tx_power sd) = 4%nat;
  shape_rx_power : length (rx_power sd) = 4%nat;
  shape_rxaw : length (rxaw sd) = 8%nat;
  shape_rxaw_rows : Forall (λ row, length row = 4%nat) (rxaw sd);
  shape_txaw : length (txaw sd) = 8%nat;
  shape_txaw_rows : Forall (λ row, length row = 4%nat) (txaw sd);
  shape_scd : length (scd sd) = 8%nat
}.

(** [lo <= off < hi]. *)
Definition in_range (lo hi off : Z) : bool := (lo <=? off) && (off <? hi).

(** The offsets of the alarm and warning bytes of the transmit side. *)
Definition tx_aw_footprint (off : Z) : bool :=
  in_range QSFP_DD_TX_HA_OFFSET (QSFP_DD_TX_LW_OFFSET + 1) off.

(** The offsets behind everything else the parse stores: the thresholds
    of page 2, the receive alarm bytes and the lane monitors of page
    0x11. *)
Definition rest_footprint (off : Z) : bool :=
  in_range QSFP_DD_TEMP_THRS_START_OFFSET (QSFP_DD_VOLT_THRS_START_OFFSET + 8) off
  || in_range QSFP_DD_TXPW_THRS_START_OFFSET
              (QSFP_DD_RXPW_THRS_START_OFFSET + 8) off
  || in_range QSFP_DD_RX_HA_OFFSET (QSFP_DD_RX_LW_OFFSET + 1) off
  || in_range QSFP_DD_TX_PWR_START_OFFSET (QSFP_DD_RX_PWR_START_OFFSET + 16) off.

Definition diag_footprint (off : Z) : bool :=
  tx_aw_footprint off || rest_footprint off.

(** All that is printed from a parsed structure. *)
Definition printed (d : diag_lines) :=
  (tx_bias_monitor d, tx_output_power d, rx_input_power d,
   rx_aw_lines d, tx_aw_lines d, qsfp_dd_show_thresholds (thresholds d)).

(** All that is printed of an optical power report. *)
Definition printed_report (r : optical_pwr_report) :=
  (module_temperature r, module_voltage r, printed <$> diagnostics r).

(** The start offset of the thresholds of the quantity printed as group
    [q] of [qsfp_dd_show_thresholds] (bias, output power, temperature,
    voltage, rx power), its macro and the start of its labels. *)
Definition threshold_base (q : nat) : Z :=
  match q with
  | 0%nat => QSFP_DD_TXBI_THRS_START_OFFSET
  | 1%nat => QSFP_DD_TXPW_THRS_START_OFFSET
  | 2%nat => QSFP_DD_TEMP_THRS_START_OFFSET
  | 3%nat => QSFP_DD_VOLT_THRS_START_OFFSET
  | _ => QSFP_DD_RXPW_THRS_START_OFFSET
  end.

Definition threshold_macro (q : nat) : print_macro :=
  match q with
  | 0%nat => BIAS
  | 1%nat => xX_PWR
  | 2%nat => TEMP
  | 3%nat => VCC
  | _ => xX_PWR
  end.

Definition threshold_quantity (q : nat) : string :=
  match q with
  | 0%nat => "Laser bias current"
  | 1%nat => "Laser output power"
  | 2%nat => "Module temperature"
  | 3%nat => "Module voltage"
  | _ => "Laser rx power"
  end.

Definition threshold_class (c : nat) : string :=
  match c with
  | 0%nat => "high alarm"
  | 1%nat => "low alarm"
  | 2%nat => "high warning"
  | _ => "low warning"
  end.

(** The value of a threshold as stored: signed for the temperature. *)
Definition threshold_value (q : nat) (u : Z) : Z :=
  match q with
  | 2%nat => if u <? 0x8000 then u else u - 0x10000
  | _ => u
  end.

(** Printers for sff-common.c that show the byte at the offset they
    are given (the last one of a range). *)
Definition show_byte (id : eeprom) (off : Z) : option Z := rd id off.
Definition show_unit (id : eeprom) (reg : Z) (name : string) (mult : Z)
    (unit : string) : option Z := Z.mul mult <$> rd id reg.
Definition show_last (id : eeprom) (first last : Z) (name : string)
    : option Z := rd id last.

(** What the two bytes of a wavelength field decode to, as numbers: the
    nominal wavelength and the tolerance of the same raw value. *)
Definition wavelength_near (msb lsb : Z) : bool :=
  let raw := 256 * msb + lsb in
  SF_near (F64.mul (F64.of_Z raw) F64.c0_05) (raw # 20) (1 # 1000000000000)
  && SF_near (F64.mul (F64.of_Z raw) F64.c0_005) (raw # 200)
             (1 # 1000000000000).

(** * Properties *)

(** ** Reads *)

Lemma rd_None (id : eeprom) (off : Z) :
  rd id off = None ↔ off < 0 ∨ Z.of_nat (length id) <= off.
Proof.
  unfold rd. destruct (Z.ltb_spec off 0) as [Hneg|Hpos].
  - split; [intros _; lia | done].
  - rewrite lookup_ge_None. lia.
Qed.

Lemma rd_in (id : eeprom) (off : Z) (n : nat) :
  (n ≤ length id)%nat →
  (0 <=? off) && (off <? Z.of_nat n) = true →
  rd id off = Some (byte_at id off).
Proof.
  intros Hn Hoff. apply andb_prop in Hoff as [H0 H1].
  apply Z.leb_le in H0. apply Z.ltb_lt in H1.
  unfold byte_at. destruct (rd id off) as [b|] eqn:E; [done|].
  apply rd_None in E. lia.
Qed.

Lemma rd_out (id : eeprom) (off : Z) :
  Z.of_nat (length id) <= off → rd id off = None.
Proof. intros H. apply rd_None. lia. Qed.

Lemma rd_wf (id : eeprom) (off b : Z) :
  wf_eeprom id → rd id off = Some b → 0 <= b < 256.
Proof.
  unfold wf_eeprom, rd. intros Hwf. destruct (off <? 0); [done|].
  intros Hb. exact (proj1 (Forall_lookup _ _) Hwf _ _ Hb).
Qed.

Lemma byte_at_wf (id : eeprom) (off : Z) :
  wf_eeprom id → 0 <= byte_at id off < 256.
Proof.
  intros Hwf. unfold byte_at. destruct (rd id off) as [b|] eqn:E; simpl.
  - eapply rd_wf; eauto.
  - lia.
Qed.

(** Two bytes joined by shift and or are the big-endian number. *)
Lemma lor_shiftl_bytes (hi lo : Z) :
  0 <= hi < 256 → 0 <= lo < 256 →
  Z.lor (Z.shiftl hi 8) lo = 256 * hi + lo.
Proof.
  intros Hhi Hlo.
  assert (Hlo_high : ∀ n, 8 <= n → Z.testbit lo n = false).
  { intros n Hn. destruct (Z.eq_dec lo 0) as [->|Hnz]; [apply Z.bits_0|].
    apply Z.bits_above_log2; [lia|].
    apply Z.lt_le_trans with 8; [|done].
    apply Z.log2_lt_pow2; [lia|]. change (2 ^ 8) with 256. lia. }
  assert (Hland : Z.land (Z.shiftl hi 8) lo = 0).
  { apply Z.bits_inj'. intros n Hn. rewrite Z.land_spec, Z.bits_0.
    destruct (Z.ltb_spec n 8) as [Hlt|Hge].
    - rewrite Z.shiftl_spec_low by lia. done.
    - rewrite Hlo_high by lia. apply andb_false_r. }
  rewrite <- Z.lxor_lor by exact Hland.
  rewrite <- Z.add_nocarry_lxor by exact Hland.
  rewrite Z.shiftl_mul_pow2 by lia. change (2 ^ 8) with 256. lia.
Qed.

Lemma to_u16_small (x : Z) : 0 <= x < 65536 → to_u16 x = x.
Proof.
  intros H. unfold to_u16. change 0xFFFF with (Z.ones 16).
  rewrite Z.land_ones by lia. apply Z.mod_small. change (2 ^ 16) with 65536. lia.
Qed.

Lemma u16_be_range (id : eeprom) (off : Z) :
  wf_eeprom id → 0 <= u16_be id off < 65536.
Proof.
  intros Hwf. unfold u16_be.
  pose proof (byte_at_wf id off Hwf). pose proof (byte_at_wf id (off + 1) Hwf).
  lia.
Qed.

(** ** Enumerating the values of a byte *)

Lemma all_bytes_spec (b : Z) : 0 <= b < 256 → b ∈ all_bytes.
Proof.
  intros Hb. unfold all_bytes. apply list_elem_of_fmap.
  exists (Z.to_nat b). split; [lia|]. apply elem_of_seq. lia.
Qed.

(** A decidable property checked on the 256 values holds of every byte. *)
Lemma byte_cases (P : Z → Prop) `{!∀ b, Decision (P b)} :
  bool_decide (Forall P all_bytes) = true → ∀ b, 0 <= b < 256 → P b.
Proof.
  intros Hall b Hb. apply bool_decide_eq_true_1 in Hall.
  exact (proj1 (Forall_forall _ _) Hall b (all_bytes_spec b Hb)).
Qed.

(** ** The float literals *)

(** [0.1f], [0.25f], [0.05] and [0.005] are the floats nearest to 1/10,
    1/4, 1/20 and 1/200. *)
Lemma float_literals :
  F32.c0_1 = F32.div (F32.of_Z 1) (F32.of_Z 10) ∧
  F32.c0_25 = F32.div (F32.of_Z 1) (F32.of_Z 4) ∧
  F64.c0_05 = F64.div (F64.of_Z 1) (F64.of_Z 20) ∧
  F64.c0_005 = F64.div (F64.of_Z 1) (F64.of_Z 200).
Proof. by vm_compute. Qed.

(** ** Cable assembly length *)

Lemma len_byte_fields (code m : Z) :
  0 <= code <= 3 → 0 <= m <= 0x3F →
  0 <= len_byte code m < 256 ∧
  Z.land (len_byte code m) QSFP_DD_LEN_VAL_MASK = m ∧
  Z.shiftr (len_byte code m) 6 = code ∧
  (len_byte code m = QSFP_DD_6300M_MAX_LEN → code = 3 ∧ m = 0x3F).
Proof.
  intros Hc Hm.
  assert (Hc' : code = 0 ∨ code = 1 ∨ code = 2 ∨ code = 3) by lia.
  assert (Hin : m ∈ Z.of_nat <$> seq 0 64).
  { apply list_elem_of_fmap. exists (Z.to_nat m). split; [lia|].
    apply elem_of_seq. lia. }
  clear Hm. revert m Hin. apply Forall_forall.
  destruct Hc' as [-> | [-> | [-> | ->]]]; compute_done.
Qed.

Lemma cbl_asm_len_of_byte (id : eeprom) (b : Z) :
  rd id QSFP_DD_CBL_ASM_LEN_OFFSET = Some b →
  qsfp_dd_show_cbl_asm_len id =
    Some (if b =? QSFP_DD_6300M_MAX_LEN then Len_over_6300m
          else Len_km (F32.mul (F32.of_Z (Z.land b QSFP_DD_LEN_VAL_MASK))
                               (cbl_asm_mul b))).
Proof.
  intros Hb. unfold qsfp_dd_show_cbl_asm_len. rewrite Hb. simpl.
  by destruct (b =? QSFP_DD_6300M_MAX_LEN).
Qed.

(** C5: a cable-assembly byte equal to the sentinel 0xFF decodes to
    "> 6.3km", whatever the rest of the memory holds; neither the
    multiplier nor the magnitude is looked at. *)
Theorem cbl_asm_len_sentinel (id : eeprom) :
  rd id QSFP_DD_CBL_ASM_LEN_OFFSET = Some QSFP_DD_6300M_MAX_LEN →
  qsfp_dd_show_cbl_asm_len id = Some Len_over_6300m.
Proof. intros Hb. by rewrite (cbl_asm_len_of_byte id _ Hb). Qed.

Lemma cbl_asm_len_sentinel_witness :
  let id := <[202%nat := 0xFF]> (replicate 256 0x5A) in
  rd id QSFP_DD_CBL_ASM_LEN_OFFSET = Some QSFP_DD_6300M_MAX_LEN ∧
  qsfp_dd_show_cbl_asm_len id = Some Len_over_6300m.
Proof.
  intros id. split; [reflexivity|].
  apply (cbl_asm_len_sentinel id). reflexivity.
Defined.

(** C6 as the spec words it fails at magnitude 0x3F with multiplier
    code 11: that byte is 0xFF, the sentinel, and decodes to "> 6.3km"
    instead of 63 * 100.0. *)
Lemma cbl_asm_len_multiplier_counterexample :
  let id := <[202%nat := len_byte 3 0x3F]> (replicate 256 0) in
  1 <= 0x3F <= 0x3F ∧ 0 <= 3 <= 3 ∧
  rd id QSFP_DD_CBL_ASM_LEN_OFFSET = Some (len_byte 3 0x3F) ∧
  qsfp_dd_show_cbl_asm_len id
    ≠ Some (Len_km (F32.mul (F32.of_Z 0x3F) (spec_scale 3))).
Proof. by vm_compute. Qed.

Lemma cbl_asm_len_ok_all (b : Z) : 0 <= b < 256 → cbl_asm_len_ok b.
Proof. apply (byte_cases cbl_asm_len_ok). by vm_compute. Qed.

(** C6, amended: every magnitude 0x01..0x3F with every multiplier code,
    except magnitude 0x3F with code 11 (the sentinel byte), decodes to
    the binary32 product of the magnitude and the scale of the code
    (0.1f, 1.0f, 10.0f, 100.0f), rounded once; for the codes 01, 10 and
    11 that product is the integer magnitude * 1, 10 or 100 itself. *)
Theorem cbl_asm_len_multiplier (id : eeprom) (code m : Z) :
  0 <= code <= 3 → 1 <= m <= 0x3F →
  ¬ (code = 3 ∧ m = 0x3F) →
  rd id QSFP_DD_CBL_ASM_LEN_OFFSET = Some (len_byte code m) →
  ∃ v, qsfp_dd_show_cbl_asm_len id = Some (Len_km v) ∧
       v = F32.mul (F32.of_Z m) (spec_scale code) ∧
       (code ≠ 0 → SF_is_Z v (m * spec_scale_Z code) = true).
Proof.
  intros Hc Hm Hns Hb.
  destruct (len_byte_fields code m Hc ltac:(lia)) as (Hr & Hmag & Hcode & Hff).
  assert (Hne : len_byte code m ≠ QSFP_DD_6300M_MAX_LEN) by tauto.
  pose proof (cbl_asm_len_ok_all _ Hr Hne) as Hok. cbv zeta in Hok.
  rewrite Hmag, Hcode in Hok. destruct Hok as (_ & Hmul & Hint).
  rewrite (cbl_asm_len_of_byte id _ Hb).
  apply Z.eqb_neq in Hne. rewrite Hne, Hmag, Hmul. eauto.
Qed.

Lemma cbl_asm_len_multiplier_witness :
  let id := <[202%nat := len_byte 2 0x15]> (replicate 256 0) in
  ∃ v, qsfp_dd_show_cbl_asm_len id = Some (Len_km v) ∧
       v = F32.mul (F32.of_Z 0x15) (spec_scale 2) ∧
       (2 ≠ 0 → SF_is_Z v (0x15 * spec_scale_Z 2) = true).
Proof.
  intros id. apply (cbl_asm_len_multiplier id 2 0x15); [lia | lia | lia |].
  reflexivity.
Defined.

(** ** SMF length *)

Lemma smf_cbl_len_of_byte (id : eeprom) (b : Z) :
  rd id QSFP_DD_SMF_LEN_OFFSET = Some b →
  qsfp_dd_print_smf_cbl_len id =
    Some (F32.mul (F32.of_Z (Z.land b QSFP_DD_LEN_VAL_MASK)) (smf_mul b)).
Proof. intros Hb. unfold qsfp_dd_print_smf_cbl_len. by rewrite Hb. Qed.

Lemma smf_len_ok_all (b : Z) : 0 <= b < 256 → smf_len_ok b.
Proof. apply (byte_cases smf_len_ok). by vm_compute. Qed.

(** C10: the SMF length is the 6-bit magnitude times 0.1f for code 00
    and times 1.0f for code 01; for the codes 10 and 11 the multiplier
    stays at its default 1.0f, so the length is the magnitude itself and
    (for a non-zero magnitude) neither 10 nor 100 times it, while the
    cable assembly decoder multiplies by 10.0f and 100.0f there. *)
Theorem smf_len_scale (id : eeprom) (b : Z) :
  0 <= b < 256 →
  rd id QSFP_DD_SMF_LEN_OFFSET = Some b →
  let m := Z.land b QSFP_DD_LEN_VAL_MASK in
  let code := Z.shiftr b 6 in
  ∃ v, qsfp_dd_print_smf_cbl_len id = Some v ∧
    (code = 0 → v = F32.mul (F32.of_Z m) F32.c0_1) ∧
    (code = 1 → v = F32.mul (F32.of_Z m) F32.c1) ∧
    (2 <= code →
     v = F32.mul (F32.of_Z m) F32.c1 ∧ SF_is_Z v m = true ∧
     (m ≠ 0 → v ≠ F32.mul (F32.of_Z m) F32.c10 ∧
              v ≠ F32.mul (F32.of_Z m) F32.c100)) ∧
    (code = 2 → cbl_asm_mul b = F32.c10) ∧
    (code = 3 → cbl_asm_mul b = F32.c100).
Proof.
  intros Hr Hb m code.
  pose proof (smf_len_ok_all b Hr) as Hok. cbv zeta in Hok.
  fold m code in Hok. destruct Hok as (H0 & H1 & H2 & H3 & H4).
  rewrite (smf_cbl_len_of_byte id b Hb). fold m.
  eexists. split; [reflexivity|].
  split; [intros Hc; by rewrite (H0 Hc)|].
  split; [intros Hc; by rewrite (H1 Hc)|].
  split; [|split; [exact H3|exact H4]].
  intros Hc. destruct (H2 Hc) as (Hmul & Hint & Hne).
  rewrite Hmul in Hint, Hne |- *. done.
Qed.

Lemma smf_len_scale_witness :
  let id := <[260%nat := 0x85]> (replicate 768 0) in
  ∃ v, qsfp_dd_print_smf_cbl_len id = Some v ∧
       v = F32.mul (F32.of_Z 5) F32.c1 ∧ SF_is_Z v 5 = true.
Proof.
  intros id.
  destruct (smf_len_scale id 0x85 ltac:(lia) eq_refl)
    as (v & Hv & _ & _ & H2 & _).
  exists v. split; [exact Hv|].
  destruct (H2 ltac:(by vm_compute)) as (Hm & Hz & _).
  split; [exact Hm | exact Hz].
Defined.

(** ** Media interface technology *)

(** C7: a technology code at or above the copper threshold 0x0A reports
    the four attenuation bytes and reads nothing else, so the result is
    the same whatever the wavelength bytes hold, or whether they exist;
    a code below the threshold reports the nominal wavelength and the
    tolerance, each the big-endian number of its two bytes multiplied in
    binary64 by 0.05 and 0.005, and no attenuation byte enters the
    result. *)
Theorem mit_branch_exclusive (id : eeprom) (tech : Z) :
  rd id QSFP_DD_MEDIA_INTF_TECH_OFFSET = Some tech →
  (QSFP_DD_COPPER_UNEQUAL <= tech →
   ∀ a5 a7 a12 a25,
     rd id QSFP_DD_COPPER_ATT_5GHZ = Some a5 →
     rd id QSFP_DD_COPPER_ATT_7GHZ = Some a7 →
     rd id QSFP_DD_COPPER_ATT_12P9GHZ = Some a12 →
     rd id QSFP_DD_COPPER_ATT_25P8GHZ = Some a25 →
     qsfp_dd_show_mit_compliance id =
       Some {| transmitter_technology := tech;
               technology_name := mit_name tech;
               media := Attenuation a5 a7 a12 a25 |}) ∧
  (tech < QSFP_DD_COPPER_UNEQUAL →
   ∀ nom_msb nom_lsb tol_msb tol_lsb,
     rd id QSFP_DD_NOM_WAVELENGTH_MSB = Some nom_msb →
     rd id QSFP_DD_NOM_WAVELENGTH_LSB = Some nom_lsb →
     rd id QSFP_DD_WAVELENGTH_TOL_MSB = Some tol_msb →
     rd id QSFP_DD_WAVELENGTH_TOL_LSB = Some tol_lsb →
     0 <= nom_msb < 256 → 0 <= nom_lsb < 256 →
     0 <= tol_msb < 256 → 0 <= tol_lsb < 256 →
     qsfp_dd_show_mit_compliance id =
       Some {| transmitter_technology := tech;
               technology_name := mit_name tech;
               media :=
                 Wavelength
                   (F64.mul (F64.of_Z (256 * nom_msb + nom_lsb)) F64.c0_05)
                   (F64.mul (F64.of_Z (256 * tol_msb + tol_lsb)) F64.c0_005)
            |}).
Proof.
  intros Htech. unfold qsfp_dd_show_mit_compliance. rewrite Htech. simpl.
  split.
  - intros Hge a5 a7 a12 a25 H5 H7 H12 H25.
    apply Z.leb_le in Hge. rewrite Hge, H5, H7, H12, H25. reflexivity.
  - intros Hlt nm nl tm tl Hnm Hnl Htm Htl Rnm Rnl Rtm Rtl.
    apply Z.leb_gt in Hlt. rewrite Hlt, Hnm, Hnl, Htm, Htl. simpl.
    by rewrite !lor_shiftl_bytes.
Qed.

Lemma mit_branch_exclusive_witness :
  let copper := <[212%nat := 0x0B]> (<[204%nat := 3]> (replicate 256 7)) in
  let optical :=
    <[212%nat := 0x04]> (<[266%nat := 0x66]> (<[267%nat := 0x58]>
      (<[268%nat := 0x03]> (<[269%nat := 0xE8]> (replicate 768 0))))) in
  media <$> qsfp_dd_show_mit_compliance copper = Some (Attenuation 3 7 7 7) ∧
  media <$> qsfp_dd_show_mit_compliance optical
    = Some (Wavelength (F64.mul (F64.of_Z 0x6658) F64.c0_05)
                       (F64.mul (F64.of_Z 0x03E8) F64.c0_005)).
Proof.
  intros copper optical. split.
  - rewrite (proj1 (mit_branch_exclusive copper 0x0B eq_refl)
               ltac:(by vm_compute) 3 7 7 7 eq_refl eq_refl eq_refl eq_refl).
    reflexivity.
  - rewrite (proj2 (mit_branch_exclusive optical 0x04 eq_refl)
               ltac:(by vm_compute) 0x66 0x58 0x03 0xE8
               eq_refl eq_refl eq_refl eq_refl
               ltac:(lia) ltac:(lia) ltac:(lia) ltac:(lia)).
    reflexivity.
Defined.

(** ** Loops *)

Lemma for_loop_pure {S : Type} (body : Z → S → option S) (f : Z → S → S) :
  ∀ (n : nat) (i : Z) (s : S),
    (∀ j s', i <= j < i + Z.of_nat n → body j s' = Some (f j s')) →
    for_loop n i body s = Some (for_pure n i f s).
Proof.
  induction n as [|n IH]; intros i s Hbody; [done|].
  simpl. rewrite Hbody by lia. simpl. apply IH.
  intros j s' Hj. apply Hbody. lia.
Qed.

(** An iteration that fails on every state makes the loop fail. *)
Lemma for_loop_None {S : Type} (body : Z → S → option S) (j : Z) :
  (∀ s, body j s = None) →
  ∀ (n : nat) (i : Z) (s : S),
    i <= j < i + Z.of_nat n → for_loop n i body s = None.
Proof.
  intros Hfail. induction n as [|n IH]; intros i s Hj; [lia|].
  simpl. destruct (Z.eq_dec i j) as [->|Hne].
  - by rewrite Hfail.
  - destruct (body i s) as [s'|]; [|done]. simpl. apply IH. lia.
Qed.

(** ** Parsing the diagnostics pages: closed form *)

Lemma OFFSET_TO_U16_in (id : eeprom) (off : Z) (n : nat) :
  (n ≤ length id)%nat →
  (0 <=? off) && (off + 1 <? Z.of_nat n) = true →
  OFFSET_TO_U16 id off =
    Some (Z.lor (Z.shiftl (byte_at id off) 8) (byte_at id (off + 1))).
Proof.
  intros Hn Hoff. apply andb_prop in Hoff as [H0 H1].
  apply Z.leb_le in H0. apply Z.ltb_lt in H1. unfold OFFSET_TO_U16.
  rewrite (rd_in id off n), (rd_in id (off + 1) n); [done|done| |done|].
  all: apply andb_true_intro; split; [apply Z.leb_le|apply Z.ltb_lt]; lia.
Qed.

Lemma OFFSET_TO_U16_out (id : eeprom) (off : Z) :
  Z.of_nat (length id) <= off + 1 → OFFSET_TO_U16 id off = None.
Proof.
  intros H. unfold OFFSET_TO_U16. rewrite (rd_out id (off + 1)) by done.
  by destruct (rd id off).
Qed.

Arguments rd : simpl never.
Arguments byte_at : simpl never.
Arguments to_u16 : simpl never.
Arguments to_s16 : simpl never.
Arguments to_u8 : simpl never.
Arguments to_bool : simpl never.

Ltac reads_in_range H :=
  repeat (first [ rewrite (OFFSET_TO_U16_in _ _ _ H) by reflexivity
                | rewrite (rd_in _ _ _ H) by reflexivity ];
          simpl).

Lemma small_cases (n i : Z) (P : Z → Prop) :
  0 <= i < n → Forall P (Z.of_nat <$> seq 0 (Z.to_nat n)) → P i.
Proof.
  intros Hi Hall. apply (proj1 (Forall_forall _ _) Hall).
  apply list_elem_of_fmap. exists (Z.to_nat i). split; [lia|].
  apply elem_of_seq. lia.
Qed.

Lemma parse_channel_eq (id : eeprom) (i : Z) :
  (DIAG_BYTES ≤ length id)%nat → 0 <= i < 8 →
  ∀ sd, parse_channel id i sd = Some (channel_spec id i sd).
Proof.
  intros Hlen Hi. pattern i. apply (small_cases 8 i); [done|].
  repeat constructor; intros sd;
    unfold parse_channel, qsfp_dd_read_aw_for_channel, OFFSET_TO_TEMP;
    simpl; reads_in_range Hlen; reflexivity.
Qed.

Lemma parse_threshold_eq (id : eeprom) (i : Z) :
  (DIAG_BYTES ≤ length id)%nat → 0 <= i < 4 →
  ∀ sd, parse_threshold id i sd = Some (threshold_spec id i sd).
Proof.
  intros Hlen Hi. pattern i. apply (small_cases 4 i); [done|].
  repeat constructor; intros sd;
    unfold parse_threshold, OFFSET_TO_TEMP;
    simpl; reads_in_range Hlen; reflexivity.
Qed.

Lemma parse_diagnostics_eq (id : eeprom) (sd : qsfp_dd_diags) :
  (DIAG_BYTES ≤ length id)%nat →
  qsfp_dd_parse_diagnostics id sd = Some (diags_spec id sd).
Proof.
  intros Hlen. unfold qsfp_dd_parse_diagnostics, diags_spec.
  change (Z.to_nat QSFP_DD_MAX_CHANNELS) with 8%nat.
  rewrite (for_loop_pure _ (channel_spec id) 8 0 sd).
  - apply (for_loop_pure (parse_threshold id) (threshold_spec id) 4 0).
    intros j s' Hj. apply parse_threshold_eq; [done|lia].
  - intros j s' Hj. apply parse_channel_eq; [done|lia].
Qed.

Lemma parse_channel_short (id : eeprom) (sd : qsfp_dd_diags) :
  (length id < DIAG_BYTES)%nat → parse_channel id 7 sd = None.
Proof.
  intros Hlen. unfold parse_channel.
  destruct (OFFSET_TO_U16 id
              (to_u16 (QSFP_DD_TX_BIAS_START_OFFSET + Z.shiftl 7 1)))
    as [v|]; [simpl|done].
  change (to_u16 (QSFP_DD_RX_PWR_START_OFFSET + Z.shiftl 7 1)) with 712.
  rewrite (OFFSET_TO_U16_out id 712); [done|]. unfold DIAG_BYTES in Hlen. lia.
Qed.

Lemma parse_diagnostics_None (id : eeprom) (sd : qsfp_dd_diags) :
  (length id < DIAG_BYTES)%nat → qsfp_dd_parse_diagnostics id sd = None.
Proof.
  intros Hlen. unfold qsfp_dd_parse_diagnostics.
  rewrite (for_loop_None (parse_channel id) 7); [done| |].
  - intros s. by apply parse_channel_short.
  - change (Z.to_nat QSFP_DD_MAX_CHANNELS) with 8%nat. lia.
Qed.

(** The parse has a result exactly when the memory reaches offset 713. *)
Lemma parse_diagnostics_Some (id : eeprom) (sd sd' : qsfp_dd_diags) :
  qsfp_dd_parse_diagnostics id sd = Some sd' ↔
  (DIAG_BYTES ≤ length id)%nat ∧ sd' = diags_spec id sd.
Proof.
  split.
  - intros Hp. destruct (Nat.le_gt_cases DIAG_BYTES (length id)) as [Hle|Hgt].
    + rewrite parse_diagnostics_eq in Hp by done. by injection Hp as <-.
    + by rewrite parse_diagnostics_None in Hp.
  - intros [Hle ->]. by apply parse_diagnostics_eq.
Qed.

Lemma diags_spec_scd (id : eeprom) :
  scd (diags_spec id sd_zero) =
    (λ i, {| qsfp_dd_channel_diags.bias_cur :=
               to_u16 (pair_at id (QSFP_DD_TX_BIAS_START_OFFSET + i * 2));
             qsfp_dd_channel_diags.rx_power :=
               to_u16 (pair_at id (QSFP_DD_RX_PWR_START_OFFSET + i * 2));
             qsfp_dd_channel_diags.tx_power :=
               to_u16 (pair_at id (QSFP_DD_TX_PWR_START_OFFSET + i * 2)) |})
    <$> lanes.
Proof. reflexivity. Qed.

Lemma diags_spec_txaw (id : eeprom) :
  txaw (diags_spec id sd_zero) =
    (λ ch, [aw_bit id QSFP_DD_TX_HA_OFFSET ch; aw_bit id QSFP_DD_TX_LA_OFFSET ch;
            aw_bit id QSFP_DD_TX_HW_OFFSET ch; aw_bit id QSFP_DD_TX_LW_OFFSET ch])
    <$> lanes.
Proof. reflexivity. Qed.

Lemma diags_spec_rxaw (id : eeprom) :
  rxaw (diags_spec id sd_zero) =
    (λ ch, [aw_bit id QSFP_DD_RX_HA_OFFSET ch; aw_bit id QSFP_DD_RX_LA_OFFSET ch;
            aw_bit id QSFP_DD_RX_HW_OFFSET ch; aw_bit id QSFP_DD_RX_LW_OFFSET ch])
    <$> lanes.
Proof. reflexivity. Qed.

Lemma diags_spec_thresholds (id : eeprom) :
  let sd := diags_spec id sd_zero in
  tx_power sd = (λ i, to_u16 (pair_at id (QSFP_DD_TXPW_THRS_START_OFFSET + i * 2)))
                <$> classes ∧
  rx_power sd = (λ i, to_u16 (pair_at id (QSFP_DD_RXPW_THRS_START_OFFSET + i * 2)))
                <$> classes ∧
  bias_cur sd = (λ i, to_u16 (pair_at id (QSFP_DD_TXBI_THRS_START_OFFSET + i * 2)))
                <$> classes ∧
  sfp_temp sd = (λ i, to_s16 (pair_at id (QSFP_DD_TEMP_THRS_START_OFFSET + i * 2)))
                <$> classes ∧
  sfp_voltage sd
    = (λ i, to_u16 (pair_at id (QSFP_DD_VOLT_THRS_START_OFFSET + i * 2)))
      <$> classes.
Proof. repeat split; reflexivity. Qed.

Arguments diags_spec : simpl never.

Lemma lanes_lookup (i : Z) : 0 <= i < 8 → lanes !! Z.to_nat i = Some i.
Proof.
  intros Hi. pattern i. apply (small_cases 8 i); [done|].
  repeat constructor.
Qed.

Lemma pair_at_wf (id : eeprom) (off : Z) :
  wf_eeprom id → to_u16 (pair_at id off) = u16_be id off.
Proof.
  intros Hwf. unfold pair_at.
  rewrite lor_shiftl_bytes by (by apply byte_at_wf).
  apply to_u16_small. by apply u16_be_range.
Qed.

(** ** The gate of the optical power report *)

Lemma gate_returns_spec (module_type eeprom_len : Z) :
  gate_returns module_type eeprom_len = false ↔
  module_type = QSFP_DD_MT_MMF ∨ module_type = QSFP_DD_MT_SMF
  ∨ eeprom_len = QSFP_DD_EEPROM_5PAG.
Proof.
  unfold gate_returns.
  destruct (Z.eqb_spec module_type QSFP_DD_MT_MMF),
           (Z.eqb_spec module_type QSFP_DD_MT_SMF),
           (Z.eqb_spec eeprom_len QSFP_DD_EEPROM_5PAG); simpl;
    intuition congruence.
Qed.

Lemma show_sig_optical_pwr_eq (id : eeprom) (eeprom_len : Z) :
  (PAGE0_BYTES ≤ length id)%nat →
  qsfp_dd_show_sig_optical_pwr id eeprom_len =
    let temp := to_s16 (pair_at id QSFP_DD_CURR_TEMP_OFFSET) in
    let vcc := pair_at id QSFP_DD_CURR_CURR_OFFSET in
    if gate_returns (to_u8 (byte_at id QSFP_DD_MODULE_TYPE_OFFSET)) eeprom_len
    then Some {| module_temperature := temp; module_voltage := vcc;
                 diagnostics := None |}
    else
      sd ← qsfp_dd_parse_diagnostics id sd_zero;
      Some {| module_temperature := temp; module_voltage := vcc;
              diagnostics := Some (show_diag_lines sd) |}.
Proof.
  intros Hlen. unfold qsfp_dd_show_sig_optical_pwr, OFFSET_TO_TEMP.
  reads_in_range Hlen. reflexivity.
Qed.

Lemma show_sig_optical_pwr_short (id : eeprom) (eeprom_len : Z) :
  (length id < PAGE0_BYTES)%nat →
  qsfp_dd_show_sig_optical_pwr id eeprom_len = None.
Proof.
  intros Hlen. unfold qsfp_dd_show_sig_optical_pwr.
  rewrite (rd_out id QSFP_DD_MODULE_TYPE_OFFSET); [done|].
  unfold PAGE0_BYTES in Hlen. change QSFP_DD_MODULE_TYPE_OFFSET with 85. lia.
Qed.

(** When the report exists, the diagnostics are in it exactly when the
    module type is MMF, or is SMF, or the declared length is 768. *)
Lemma gate_rule (id : eeprom) (eeprom_len : Z) (r : optical_pwr_report) :
  qsfp_dd_show_sig_optical_pwr id eeprom_len = Some r →
  is_Some (diagnostics r) ↔
  gate_returns (to_u8 (byte_at id QSFP_DD_MODULE_TYPE_OFFSET)) eeprom_len
  = false.
Proof.
  intros Hr.
  destruct (Nat.le_gt_cases PAGE0_BYTES (length id)) as [Hle|Hgt].
  - rewrite show_sig_optical_pwr_eq in Hr by done. simpl in Hr.
    destruct (gate_returns _ _).
    + injection Hr as <-. simpl. split; [by intros [? ?]|done].
    + destruct (qsfp_dd_parse_diagnostics id sd_zero) as [sd|]; [|done].
      injection Hr as <-. simpl. split; [done|eauto].
  - by rewrite show_sig_optical_pwr_short in Hr.
Qed.

(** C1: the code lets a 768-byte dump through the gate whatever its
    module type: for the copper module the report carries the eight
    channels and the thresholds, where the claim has none. *)
Theorem gate_copper_768_extracts :
  length copper_768 = 768%nat ∧
  rd copper_768 QSFP_DD_MODULE_TYPE_OFFSET = Some 0x03 ∧
  0x03 ≠ QSFP_DD_MT_MMF ∧ 0x03 ≠ QSFP_DD_MT_SMF ∧
  ∃ r d, qsfp_dd_show_sig_optical_pwr copper_768 768 = Some r ∧
         diagnostics r = Some d ∧
         length (tx_bias_monitor d) = 8%nat ∧
         length (sfp_temp (thresholds d)) = 4%nat.
Proof.
  split; [reflexivity|]. split; [reflexivity|]. split; [done|]. split; [done|].
  eexists. eexists. split; [vm_compute; reflexivity|].
  split; [reflexivity|]. split; reflexivity.
Qed.

(** C2: for the 256-byte dump of an MMF module the code passes the gate
    and parses pages that are not there; the first read, at 0x2AA, is
    outside the memory and the call has no defined result, where the
    claim has a report without diagnostics. *)
Theorem gate_mmf_256_reads_outside :
  length mmf_256 = 256%nat ∧
  rd mmf_256 QSFP_DD_MODULE_TYPE_OFFSET = Some QSFP_DD_MT_MMF ∧
  gate_returns QSFP_DD_MT_MMF 256 = false ∧
  rd mmf_256 QSFP_DD_TX_BIAS_START_OFFSET = None ∧
  qsfp_dd_show_sig_optical_pwr mmf_256 256 = None.
Proof. repeat split; by vm_compute. Qed.

(** Where the gate does return, a 256-byte dump gives the temperature
    and the voltage and no diagnostics. *)
Lemma show_sig_optical_pwr_256_other (id : eeprom) (mt : Z) :
  length id = 256%nat →
  rd id QSFP_DD_MODULE_TYPE_OFFSET = Some mt →
  to_u8 mt ≠ QSFP_DD_MT_MMF → to_u8 mt ≠ QSFP_DD_MT_SMF →
  qsfp_dd_show_sig_optical_pwr id 256 =
    Some {| module_temperature := to_s16 (pair_at id QSFP_DD_CURR_TEMP_OFFSET);
            module_voltage := pair_at id QSFP_DD_CURR_CURR_OFFSET;
            diagnostics := None |}.
Proof.
  intros Hlen Hmt Hm Hs.
  rewrite show_sig_optical_pwr_eq by (unfold PAGE0_BYTES; lia). simpl.
  unfold byte_at. rewrite Hmt. simpl. unfold gate_returns.
  apply Z.eqb_neq in Hm, Hs. by rewrite Hm, Hs.
Qed.

(** With a fibre module type a 256-byte dump never gives a report. *)
Lemma show_sig_optical_pwr_256_fibre (id : eeprom) (mt : Z) :
  length id = 256%nat →
  rd id QSFP_DD_MODULE_TYPE_OFFSET = Some mt →
  to_u8 mt = QSFP_DD_MT_MMF ∨ to_u8 mt = QSFP_DD_MT_SMF →
  qsfp_dd_show_sig_optical_pwr id 256 = None.
Proof.
  intros Hlen Hmt Hfib.
  rewrite show_sig_optical_pwr_eq by (unfold PAGE0_BYTES; lia). simpl.
  unfold byte_at. rewrite Hmt. simpl.
  replace (gate_returns (to_u8 mt) 256) with false.
  - rewrite parse_diagnostics_None; [done|]. unfold DIAG_BYTES. lia.
  - symmetry. apply gate_returns_spec. tauto.
Qed.

(** ** The channels of a fibre module *)

Lemma be16_at_u16_be (id : eeprom) (off : Z) (n : nat) :
  (n ≤ length id)%nat → 0 <= off → off + 1 < Z.of_nat n →
  be16_at id off (u16_be id off).
Proof.
  intros Hn H0 H1. exists (byte_at id off), (byte_at id (off + 1)).
  split; [|split; [|done]]; apply (rd_in id _ n Hn);
    apply andb_true_intro; split; first [apply Z.leb_le|apply Z.ltb_lt]; lia.
Qed.

(** C4: for a 768-byte dump whose module type is MMF or SMF the report
    exists and carries exactly eight channels; bias current, transmit
    power and receive power of lane [i] are the big-endian 16-bit
    numbers at the base offset of the quantity plus [i * 2]. *)
Theorem fibre_768_eight_channels (id : eeprom) (mt : Z) :
  length id = 768%nat → wf_eeprom id →
  rd id QSFP_DD_MODULE_TYPE_OFFSET = Some mt →
  mt = QSFP_DD_MT_MMF ∨ mt = QSFP_DD_MT_SMF →
  ∃ r d,
    qsfp_dd_show_sig_optical_pwr id 768 = Some r ∧
    diagnostics r = Some d ∧
    length (scd (thresholds d)) = 8%nat ∧
    length (tx_bias_monitor d) = 8%nat ∧
    length (tx_output_power d) = 8%nat ∧
    length (rx_input_power d) = 8%nat ∧
    ∀ i, 0 <= i < 8 →
      ∃ c, scd (thresholds d) !! Z.to_nat i = Some c ∧
           tx_bias_monitor d !! Z.to_nat i
             = Some (qsfp_dd_channel_diags.bias_cur c) ∧
           tx_output_power d !! Z.to_nat i
             = Some (qsfp_dd_channel_diags.tx_power c) ∧
           rx_input_power d !! Z.to_nat i
             = Some (qsfp_dd_channel_diags.rx_power c) ∧
           be16_at id (QSFP_DD_TX_BIAS_START_OFFSET + i * 2)
                   (qsfp_dd_channel_diags.bias_cur c) ∧
           be16_at id (QSFP_DD_TX_PWR_START_OFFSET + i * 2)
                   (qsfp_dd_channel_diags.tx_power c) ∧
           be16_at id (QSFP_DD_RX_PWR_START_OFFSET + i * 2)
                   (qsfp_dd_channel_diags.rx_power c).
Proof.
  intros Hlen Hwf Hmt Hfib.
  assert (Hd : (DIAG_BYTES ≤ length id)%nat) by (unfold DIAG_BYTES; lia).
  assert (Hfull : (768 ≤ length id)%nat) by lia.
  rewrite show_sig_optical_pwr_eq by (unfold PAGE0_BYTES; lia). simpl.
  unfold byte_at at 1. rewrite Hmt. simpl.
  replace (gate_returns (to_u8 mt) 768) with false
    by (by destruct Hfib as [-> | ->]).
  rewrite parse_diagnostics_eq by done.
  eexists. eexists. split; [reflexivity|]. split; [reflexivity|].
  cbn [thresholds show_diag_lines tx_bias_monitor tx_output_power
       rx_input_power].
  rewrite !length_fmap, diags_spec_scd.
  do 4 (split; [reflexivity|]).
  intros i Hi. rewrite !list_lookup_fmap, lanes_lookup by done.
  eexists. split; [reflexivity|].
  cbn [fmap option_fmap option_map qsfp_dd_channel_diags.bias_cur
       qsfp_dd_channel_diags.tx_power qsfp_dd_channel_diags.rx_power].
  rewrite !pair_at_wf by done.
  do 3 (split; [reflexivity|]).
  unfold QSFP_DD_TX_BIAS_START_OFFSET, QSFP_DD_TX_PWR_START_OFFSET,
    QSFP_DD_RX_PWR_START_OFFSET, PAG11H_OFFSET.
  repeat split; apply (be16_at_u16_be id _ 768 Hfull); lia.
Qed.

Lemma smf_768_wf : wf_eeprom smf_768.
Proof. unfold wf_eeprom. apply (bool_decide_unpack _). by vm_compute. Defined.

Lemma fibre_768_eight_channels_witness :
  ∃ r d,
    qsfp_dd_show_sig_optical_pwr smf_768 768 = Some r ∧
    diagnostics r = Some d ∧
    length (scd (thresholds d)) = 8%nat ∧
    tx_bias_monitor d !! 0%nat = Some 0x1234.
Proof.
  destruct (fibre_768_eight_channels smf_768 QSFP_DD_MT_SMF
              eq_refl smf_768_wf eq_refl (or_intror eq_refl))
    as (r & d & Hr & Hd & Hn & _ & _ & _ & Hlane).
  exists r, d. split; [exact Hr|]. split; [exact Hd|]. split; [exact Hn|].
  destruct (Hlane 0 ltac:(lia)) as (c & _ & Hb & _ & _ & (hi & lo & Hhi & Hlo & Hv) & _).
  change (Z.to_nat 0) with 0%nat in Hb. rewrite Hb, Hv.
  vm_compute in Hhi, Hlo. injection Hhi as <-. injection Hlo as <-. reflexivity.
Defined.

(** ** The temperature example *)

(** C9: in a 768-byte dump of an SMF module with the temperature bytes
    0x19 0x80, the module temperature is the signed 16-bit number 6528,
    printed as 6528 / 256 = 25.5 degrees. *)
Theorem temperature_example (id : eeprom) :
  length id = 768%nat →
  rd id QSFP_DD_MODULE_TYPE_OFFSET = Some QSFP_DD_MT_SMF →
  rd id QSFP_DD_CURR_TEMP_OFFSET = Some 0x19 →
  rd id (QSFP_DD_CURR_TEMP_OFFSET + 1) = Some 0x80 →
  ∃ r, qsfp_dd_show_sig_optical_pwr id 768 = Some r ∧
       module_temperature r = 6528 ∧
       SF_is_Q (PRINT_TEMP (module_temperature r)) (255 # 10) = true.
Proof.
  intros Hlen Hmt Hhi Hlo.
  rewrite show_sig_optical_pwr_eq by (unfold PAGE0_BYTES; lia). simpl.
  unfold pair_at at 1 3, byte_at. rewrite Hmt, Hhi, Hlo. simpl.
  rewrite parse_diagnostics_eq by (unfold DIAG_BYTES; lia). simpl.
  eexists. split; [reflexivity|]. simpl. split; by vm_compute.
Qed.

Lemma temperature_example_witness :
  ∃ r, qsfp_dd_show_sig_optical_pwr smf_768 768 = Some r ∧
       module_temperature r = 6528 ∧
       SF_is_Q (PRINT_TEMP (module_temperature r)) (255 # 10) = true.
Proof. apply (temperature_example smf_768); reflexivity. Defined.

(** ** Offsets, the declared length and the memory *)

(** The declared length is looked at once, in the comparison with 768
    at the gate: no offset is compared with it. *)
Lemma eeprom_len_only_at_gate (id : eeprom) (eeprom_len eeprom_len' : Z) :
  (eeprom_len =? QSFP_DD_EEPROM_5PAG) = (eeprom_len' =? QSFP_DD_EEPROM_5PAG) →
  qsfp_dd_show_sig_optical_pwr id eeprom_len
  = qsfp_dd_show_sig_optical_pwr id eeprom_len'.
Proof. intros H. unfold qsfp_dd_show_sig_optical_pwr. by rewrite H. Qed.

(** C3: the 256-byte dump of an SMF module, declared as 256 bytes.  The
    temperature and the voltage are decoded and handed to their print
    macros, the gate does not return, and the parse asks for the bias
    current of the first lane at offset 0x2AA, beyond the declared
    length, with no test: the read is outside the memory and the call
    has no defined result, where the claim has an OutOfRange error and
    nothing reported. *)
Theorem declared_length_read_past :
  let eeprom_len := 256 in
  Z.of_nat (length smf_256) = eeprom_len ∧
  rd smf_256 QSFP_DD_MODULE_TYPE_OFFSET = Some QSFP_DD_MT_SMF ∧
  OFFSET_TO_TEMP smf_256 QSFP_DD_CURR_TEMP_OFFSET = Some 6528 ∧
  OFFSET_TO_U16 smf_256 QSFP_DD_CURR_CURR_OFFSET = Some 0 ∧
  gate_returns QSFP_DD_MT_SMF eeprom_len = false ∧
  eeprom_len <= QSFP_DD_TX_BIAS_START_OFFSET ∧
  rd smf_256 QSFP_DD_TX_BIAS_START_OFFSET = None ∧
  parse_channel smf_256 0 sd_zero = None ∧
  qsfp_dd_parse_diagnostics smf_256 sd_zero = None ∧
  qsfp_dd_show_sig_optical_pwr smf_256 eeprom_len = None.
Proof. repeat split; by vm_compute. Qed.

Lemma show_cbl_asm_len_None (id : eeprom) :
  qsfp_dd_show_cbl_asm_len id = None ↔
  Z.of_nat (length id) <= QSFP_DD_CBL_ASM_LEN_OFFSET.
Proof.
  unfold qsfp_dd_show_cbl_asm_len.
  destruct (rd id QSFP_DD_CBL_ASM_LEN_OFFSET) as [b|] eqn:E; simpl.
  - assert (¬ Z.of_nat (length id) <= QSFP_DD_CBL_ASM_LEN_OFFSET).
    { intros H. apply rd_out in H. congruence. }
    by destruct (b =? QSFP_DD_6300M_MAX_LEN).
  - apply rd_None in E. change QSFP_DD_CBL_ASM_LEN_OFFSET with 202 in *. split; [lia|done].
Qed.

Lemma print_smf_cbl_len_None (id : eeprom) :
  qsfp_dd_print_smf_cbl_len id = None ↔
  Z.of_nat (length id) <= QSFP_DD_SMF_LEN_OFFSET.
Proof.
  unfold qsfp_dd_print_smf_cbl_len.
  destruct (rd id QSFP_DD_SMF_LEN_OFFSET) as [b|] eqn:E; simpl.
  - assert (¬ Z.of_nat (length id) <= QSFP_DD_SMF_LEN_OFFSET).
    { intros H. apply rd_out in H. congruence. }
    done.
  - apply rd_None in E. change QSFP_DD_SMF_LEN_OFFSET with 260 in *. split; [lia|done].
Qed.

Lemma show_mit_compliance_None (id : eeprom) :
  qsfp_dd_show_mit_compliance id = None ↔
  Z.of_nat (length id) <= QSFP_DD_MEDIA_INTF_TECH_OFFSET ∨
  (byte_at id QSFP_DD_MEDIA_INTF_TECH_OFFSET < QSFP_DD_COPPER_UNEQUAL ∧
   Z.of_nat (length id) <= QSFP_DD_WAVELENGTH_TOL_LSB).
Proof.
  assert (Htech : QSFP_DD_MEDIA_INTF_TECH_OFFSET = 212) by reflexivity.
  assert (Htol : QSFP_DD_WAVELENGTH_TOL_LSB = 269) by reflexivity.
  unfold qsfp_dd_show_mit_compliance, byte_at.
  destruct (rd id QSFP_DD_MEDIA_INTF_TECH_OFFSET) as [tech|] eqn:E; simpl.
  - assert (Hlen : (213 ≤ length id)%nat).
    { destruct (Nat.le_gt_cases 213 (length id)) as [?|Hgt]; [done|].
      rewrite rd_out in E; [done|]. lia. }
    destruct (Z.leb_spec QSFP_DD_COPPER_UNEQUAL tech) as [Hge|Hlt].
    + reads_in_range Hlen. split; [done|lia].
    + destruct (Nat.le_gt_cases 270 (length id)) as [Hle|Hgt].
      * reads_in_range Hle. split; [done|lia].
      * split; [lia|intros _].
        destruct (rd id QSFP_DD_NOM_WAVELENGTH_MSB); [simpl|done].
        destruct (rd id QSFP_DD_NOM_WAVELENGTH_LSB); [simpl|done].
        destruct (rd id QSFP_DD_WAVELENGTH_TOL_MSB); [simpl|done].
        rewrite (rd_out id QSFP_DD_WAVELENGTH_TOL_LSB) by lia. done.
  - apply rd_None in E. split; [lia|done].
Qed.

Lemma show_sig_optical_pwr_None (id : eeprom) (eeprom_len : Z) :
  qsfp_dd_show_sig_optical_pwr id eeprom_len = None ↔
  (length id < PAGE0_BYTES)%nat ∨
  (gate_returns (to_u8 (byte_at id QSFP_DD_MODULE_TYPE_OFFSET)) eeprom_len
   = false ∧ (length id < DIAG_BYTES)%nat).
Proof.
  destruct (Nat.le_gt_cases PAGE0_BYTES (length id)) as [Hle|Hgt].
  - rewrite show_sig_optical_pwr_eq by done. cbv zeta.
    destruct (gate_returns _ _).
    + split; [done|]. intros [?|[? _]]; [lia|done].
    + destruct (Nat.le_gt_cases DIAG_BYTES (length id)) as [Hd|Hd].
      * rewrite parse_diagnostics_eq by done. simpl.
        split; [done|]. intros [?|[_ ?]]; lia.
      * rewrite parse_diagnostics_None by done. simpl. split; auto.
  - rewrite show_sig_optical_pwr_short by done. split; auto.
Qed.

(** ** Alarm and warning flags *)

Lemma length_flip_bit (id : eeprom) (off k : Z) :
  length (flip_bit id off k) = length id.
Proof. apply length_alter. Qed.

Lemma byte_at_flip_bit (id : eeprom) (off k off' : Z) :
  0 <= off < Z.of_nat (length id) → 0 <= off' →
  byte_at (flip_bit id off k) off' =
    if decide (off' = off) then Z.lxor (byte_at id off) (Z.shiftl 1 k)
    else byte_at id off'.
Proof.
  intros Hoff Hoff'. unfold byte_at, rd, flip_bit.
  destruct (Z.ltb_spec off' 0) as [?|_]; [lia|].
  destruct (Z.ltb_spec off 0) as [?|_]; [lia|].
  destruct (decide (off' = off)) as [->|Hne].
  - rewrite list_lookup_alter_eq.
    destruct (lookup_lt_is_Some_2 id (Z.to_nat off) ltac:(lia)) as [b ->].
    done.
  - rewrite list_lookup_alter_ne by lia. done.
Qed.

Lemma aw_bit_testbit (id : eeprom) (off ch : Z) :
  0 <= ch < 8 → aw_bit id off ch = Z.testbit (byte_at id off) ch.
Proof.
  intros Hch. unfold aw_bit, to_bool.
  assert (Hmask : to_u8 (Z.shiftl 1 ch) = 2 ^ ch).
  { rewrite Z.shiftl_1_l. pattern ch. apply (small_cases 8 ch); [done|].
    repeat constructor. }
  rewrite Hmask. set (b := byte_at id off).
  destruct (Z.testbit b ch) eqn:Eb.
  - apply negb_true_iff, Z.eqb_neq. intros H0.
    assert (Hbit : Z.testbit (Z.land b (2 ^ ch)) ch = true).
    { rewrite Z.land_spec, Eb, Z.pow2_bits_true by lia. done. }
    rewrite H0, Z.bits_0 in Hbit. done.
  - apply negb_false_iff, Z.eqb_eq. apply Z.bits_inj'. intros n Hn.
    rewrite Z.land_spec, Z.bits_0, Z.pow2_bits_eqb by lia.
    destruct (Z.eqb_spec ch n) as [<-|?]; [by rewrite Eb|apply andb_false_r].
Qed.

Lemma aw_bit_flip_bit (id : eeprom) (off k off' ch : Z) :
  0 <= off < Z.of_nat (length id) → 0 <= off' → 0 <= k < 8 → 0 <= ch < 8 →
  aw_bit (flip_bit id off k) off' ch =
    if decide (off' = off ∧ ch = k) then negb (aw_bit id off' ch)
    else aw_bit id off' ch.
Proof.
  intros Hoff Hoff' Hk Hch. rewrite !aw_bit_testbit by done.
  rewrite byte_at_flip_bit by done.
  destruct (decide (off' = off)) as [->|Hne].
  - rewrite Z.lxor_spec, Z.shiftl_1_l, Z.pow2_bits_eqb by lia.
    destruct (Z.eqb_spec k ch) as [->|Hkc].
    + rewrite decide_True by done. apply xorb_true_r.
    + rewrite decide_False by (intros [_ ?]; congruence). apply xorb_false_r.
  - rewrite decide_False by tauto. done.
Qed.

Lemma aw_flag_spec (id : eeprom) (d : direction) (ch cls : nat) :
  (ch < 8)%nat → (cls < 4)%nat →
  aw_flag (diags_spec id sd_zero) d ch cls
  = Some (aw_bit id (aw_offset d cls) (Z.of_nat ch)).
Proof.
  intros Hch Hcls. unfold aw_flag.
  destruct d; [rewrite diags_spec_txaw|rewrite diags_spec_rxaw].
  all: do 8 (destruct ch as [|ch]; [
         do 4 (destruct cls as [|cls]; [reflexivity|]); lia |]); lia.
Qed.

Lemma aw_offset_inj (d d' : direction) (cls cls' : nat) :
  (cls < 4)%nat → (cls' < 4)%nat →
  aw_offset d' cls' = aw_offset d cls → d' = d ∧ cls' = cls.
Proof.
  intros Hc Hc'.
  do 4 (destruct cls as [|cls]; [
    do 4 (destruct cls' as [|cls']; [
      destruct d, d'; by vm_compute |]); lia |]); lia.
Qed.

Lemma aw_offset_range (d : direction) (cls : nat) :
  0 <= aw_offset d cls < Z.of_nat DIAG_BYTES.
Proof.
  destruct d; do 3 (destruct cls as [|cls]; [by vm_compute|]); by vm_compute.
Qed.

(** C8: two memories that differ in bit [k] of one alarm-class byte only
    parse to flags that differ in exactly one place: the flag of lane
    [k] for the class and the direction of that byte is inverted, and
    the flag of every other lane, class and direction is the same. *)
Theorem alarm_bit_independent (id : eeprom) (d : direction) (cls : nat)
    (k : Z) (sd : qsfp_dd_diags) :
  (cls < 4)%nat → 0 <= k < 8 →
  qsfp_dd_parse_diagnostics id sd_zero = Some sd →
  ∃ sd',
    qsfp_dd_parse_diagnostics (flip_bit id (aw_offset d cls) k) sd_zero
    = Some sd' ∧
    ∀ (d' : direction) (ch cls' : nat), (ch < 8)%nat → (cls' < 4)%nat →
      ∃ f, aw_flag sd d' ch cls' = Some f ∧
           aw_flag sd' d' ch cls' =
             Some (if decide (d' = d ∧ Z.of_nat ch = k ∧ cls' = cls)
                   then negb f else f).
Proof.
  intros Hcls Hk Hparse.
  apply parse_diagnostics_Some in Hparse as [Hlen ->].
  pose proof (aw_offset_range d cls) as Hoff.
  eexists. split.
  { apply parse_diagnostics_eq. by rewrite length_flip_bit. }
  intros d' ch cls' Hch Hcls'. rewrite !aw_flag_spec by done.
  eexists. split; [reflexivity|]. f_equal.
  rewrite aw_bit_flip_bit; [| lia | apply aw_offset_range | done | lia].
  destruct (decide (aw_offset d' cls' = aw_offset d cls ∧ Z.of_nat ch = k))
    as [[Ho Hc]|Hno].
  - apply aw_offset_inj in Ho as [-> ->]; [|done|done].
    by rewrite decide_True.
  - rewrite decide_False; [done|]. intros (-> & Hc & ->). tauto.
Qed.

Lemma alarm_bit_independent_witness :
  ∃ sd',
    qsfp_dd_parse_diagnostics (flip_bit smf_768 (aw_offset Rx LA) 3) sd_zero
    = Some sd' ∧
    aw_flag sd' Rx 3 LA = Some true ∧
    aw_flag sd' Rx 2 LA = Some false ∧
    aw_flag sd' Tx 3 LA = Some false.
Proof.
  destruct (alarm_bit_independent smf_768 Rx LA 3 (diags_spec smf_768 sd_zero)
              ltac:(unfold LA; lia) ltac:(lia) ltac:(by vm_compute))
    as (sd' & Hp & Hflags).
  exists sd'. split; [exact Hp|].
  destruct (Hflags Rx 3%nat LA ltac:(lia) ltac:(unfold LA; lia))
    as (f1 & Hf1 & ->).
  destruct (Hflags Rx 2%nat LA ltac:(lia) ltac:(unfold LA; lia))
    as (f2 & Hf2 & ->).
  destruct (Hflags Tx 3%nat LA ltac:(lia) ltac:(unfold LA; lia))
    as (f3 & Hf3 & ->).
  vm_compute in Hf1, Hf2, Hf3.
  injection Hf1 as <-. injection Hf2 as <-. injection Hf3 as <-.
  repeat split.
Defined.

(** ** The whole report needs page 1 *)

Lemma show_sig_integrity_None (id : eeprom) :
  qsfp_dd_show_sig_integrity id = None ↔
  Z.of_nat (length id) <= QSFP_DD_SIG_INTEG_RX_OFFSET.
Proof.
  assert (Htx : QSFP_DD_SIG_INTEG_TX_OFFSET = 289) by reflexivity.
  assert (Hrx : QSFP_DD_SIG_INTEG_RX_OFFSET = 290) by reflexivity.
  unfold qsfp_dd_show_sig_integrity.
  destruct (rd id QSFP_DD_SIG_INTEG_RX_OFFSET) as [rx|] eqn:E.
  - assert (Hlen : ¬ Z.of_nat (length id) <= QSFP_DD_SIG_INTEG_RX_OFFSET).
    { intros H. apply rd_out in H. congruence. }
    rewrite (rd_in id QSFP_DD_SIG_INTEG_TX_OFFSET (length id)); [done|done|].
    apply andb_true_intro. split; [done|apply Z.ltb_lt; lia].
  - apply rd_None in E. split; [lia|intros _].
    by destruct (rd id QSFP_DD_SIG_INTEG_TX_OFFSET).
Qed.

Section ShowAllFacts.

Context {ext : Type}.
Variable sff8024_show_identifier : eeprom → Z → option ext.
Variable sff8024_show_connector : eeprom → Z → option ext.
Variable sff8024_show_oui : eeprom → Z → option ext.
Variable sff_show_value_with_unit :
  eeprom → Z → string → Z → string → option ext.
Variable sff_show_ascii : eeprom → Z → Z → string → option ext.

(** Whatever the printers of sff-common.c do, the whole report reads
    the signal integrity bytes of page 1: a dump that ends before
    offset 0x122, so every 256-byte dump, has no defined report. *)
Lemma show_all_needs_page_1 (id : eeprom) (eeprom_len : Z) :
  Z.of_nat (length id) <= QSFP_DD_SIG_INTEG_RX_OFFSET →
  qsfp_dd_show_all sff8024_show_identifier sff8024_show_connector
    sff8024_show_oui sff_show_value_with_unit sff_show_ascii id eeprom_len
  = None.
Proof.
  intros Hlen. unfold qsfp_dd_show_all.
  rewrite (proj2 (show_sig_integrity_None id) Hlen).
  destruct (qsfp_dd_show_identifier _ id); [simpl|done].
  destruct (qsfp_dd_show_power_info id); [simpl|done].
  destruct (qsfp_dd_show_connector _ id); [simpl|done].
  by destruct (qsfp_dd_show_cbl_asm_len id).
Qed.

End ShowAllFacts.

(** The alarm lines labelled Tx are those labelled Rx. *)
Lemma tx_aw_lines_from_rxaw (sd : qsfp_dd_diags) :
  tx_aw_lines (show_diag_lines sd) = rxaw sd ∧
  rx_aw_lines (show_diag_lines sd) = rxaw sd.
Proof. done. Qed.

(** * Further properties of the decoders *)

(** ** Revision and power *)

Lemma rev_ok_all (b : Z) : 0 <= b < 256 → rev_ok b.
Proof. apply (byte_cases rev_ok). by vm_compute. Qed.

(** X1: the revision byte splits into its two nibbles: major and minor
    are below 16 and [16 * major + minor] is the byte. *)
Theorem rev_compliance_nibbles (id : eeprom) (b : Z) :
  0 <= b < 256 →
  rd id QSFP_DD_REV_COMPLIANCE_OFFSET = Some b →
  ∃ major minor,
    qsfp_dd_show_rev_compliance id = Some (major, minor) ∧
    0 <= major < 16 ∧ 0 <= minor < 16 ∧ 16 * major + minor = b.
Proof.
  intros Hb Hrd. unfold qsfp_dd_show_rev_compliance. rewrite Hrd.
  eexists. eexists. split; [reflexivity|]. exact (rev_ok_all b Hb).
Qed.

Lemma rev_compliance_nibbles_witness :
  ∃ major minor,
    qsfp_dd_show_rev_compliance (<[1%nat := 0x40]> (replicate 256 0))
    = Some (major, minor) ∧
    0 <= major < 16 ∧ 0 <= minor < 16 ∧ 16 * major + minor = 0x40.
Proof.
  apply (rev_compliance_nibbles (<[1%nat := 0x40]> (replicate 256 0)) 0x40);
    [lia | reflexivity].
Defined.

Lemma power_ok_all (b : Z) : 0 <= b < 256 → power_ok b.
Proof. apply (byte_cases power_ok). by vm_compute. Qed.

(** X2: the power class printed is the top three bits of its byte plus
    one, so between 1 and 8 whatever the five low bits hold, and the
    maximum power is the quarter of its byte, exactly. *)
Theorem power_info_exact (id : eeprom) (b p : Z) :
  0 <= b < 256 → 0 <= p < 256 →
  rd id QSFP_DD_PWR_CLASS_OFFSET = Some b →
  rd id QSFP_DD_PWR_MAX_POWER_OFFSET = Some p →
  ∃ class max_power,
    qsfp_dd_show_power_info id = Some (class, max_power) ∧
    1 <= class <= 8 ∧ class = b / 32 + 1 ∧
    SF_is_Q max_power (p # 4) = true.
Proof.
  intros Hb Hp Hrb Hrp. unfold qsfp_dd_show_power_info. rewrite Hrb, Hrp.
  eexists. eexists. split; [reflexivity|].
  destruct (power_ok_all b Hb) as (Hc1 & Hc2 & _).
  destruct (power_ok_all p Hp) as (_ & _ & Hw). auto.
Qed.

Lemma power_info_exact_witness :
  ∃ class max_power,
    qsfp_dd_show_power_info
      (<[200%nat := 0xBF]> (<[201%nat := 0x3A]> (replicate 256 0)))
    = Some (class, max_power) ∧
    1 <= class <= 8 ∧ class = 0xBF / 32 + 1 ∧
    SF_is_Q max_power (0x3A # 4) = true.
Proof.
  apply (power_info_exact _ 0xBF 0x3A); [lia | lia | reflexivity | reflexivity].
Defined.

Lemma to_u8_small (x : Z) : 0 <= x < 256 → to_u8 x = x.
Proof.
  intros H. unfold to_u8. change 0xFF with (Z.ones 8).
  rewrite Z.land_ones by lia. apply Z.mod_small. change (2 ^ 8) with 256. lia.
Qed.

(** ** Signal integrity *)

Lemma land_pow2_testbit (x k : Z) :
  0 <= k → negb (Z.land x (2 ^ k) =? 0) = Z.testbit x k.
Proof.
  intros Hk. destruct (Z.testbit x k) eqn:Eb.
  - apply negb_true_iff, Z.eqb_neq. intros H0.
    assert (Hbit : Z.testbit (Z.land x (2 ^ k)) k = true).
    { rewrite Z.land_spec, Eb, Z.pow2_bits_true by lia. done. }
    rewrite H0, Z.bits_0 in Hbit. done.
  - apply negb_false_iff, Z.eqb_eq. apply Z.bits_inj'. intros n Hn.
    rewrite Z.land_spec, Z.bits_0, Z.pow2_bits_eqb by lia.
    destruct (Z.eqb_spec k n) as [<-|?]; [by rewrite Eb|apply andb_false_r].
Qed.

(** X3: the four signal integrity answers are bit 1 (bypass control)
    and bit 0 (CDR) of the transmit and of the receive byte; the other
    six bits of either byte change nothing. *)
Theorem sig_integrity_bits (id : eeprom) (tx rx : Z) :
  rd id QSFP_DD_SIG_INTEG_TX_OFFSET = Some tx →
  rd id QSFP_DD_SIG_INTEG_RX_OFFSET = Some rx →
  qsfp_dd_show_sig_integrity id =
    Some {| tx_cdr_bypass_control := Z.testbit tx 1;
            rx_cdr_bypass_control := Z.testbit rx 1;
            tx_cdr := Z.testbit tx 0;
            rx_cdr := Z.testbit rx 0 |}.
Proof.
  intros Htx Hrx. unfold qsfp_dd_show_sig_integrity, YESNO.
  rewrite Htx, Hrx. simpl.
  change 2 with (2 ^ 1). change 1 with (2 ^ 0) at 3 4.
  by rewrite !land_pow2_testbit.
Qed.

Lemma sig_integrity_bits_witness :
  qsfp_dd_show_sig_integrity
    (<[289%nat := 0xFE]> (<[290%nat := 0x01]> (replicate 768 0)))
  = Some {| tx_cdr_bypass_control := true; rx_cdr_bypass_control := false;
            tx_cdr := false; rx_cdr := true |}.
Proof.
  apply (sig_integrity_bits
           (<[289%nat := 0xFE]> (<[290%nat := 0x01]> (replicate 768 0)))
           0xFE 0x01); reflexivity.
Defined.

(** ** Temperatures *)

(** X4: the temperature is 256 times the first byte taken as a signed
    8-bit number plus the second byte, so a number of 1/256 degree
    between -32768 and 32767. *)
Theorem temp_signed_parts (id : eeprom) (off hi lo : Z) :
  0 <= hi < 256 → 0 <= lo < 256 →
  rd id off = Some hi → rd id (off + 1) = Some lo →
  ∃ t, OFFSET_TO_TEMP id off = Some t ∧
       t = 256 * (if hi <? 128 then hi else hi - 256) + lo ∧
       -32768 <= t <= 32767.
Proof.
  intros Hhi Hlo Hrh Hrl. unfold OFFSET_TO_TEMP, OFFSET_TO_U16.
  rewrite Hrh, Hrl. simpl. rewrite lor_shiftl_bytes by done.
  eexists. split; [reflexivity|]. unfold to_s16.
  rewrite to_u16_small by lia.
  destruct (Z.ltb_spec (256 * hi + lo) 0x8000), (Z.ltb_spec hi 128); lia.
Qed.

Lemma temp_signed_parts_witness :
  OFFSET_TO_TEMP (<[14%nat := 0xF6]> (<[15%nat := 0x80]> (replicate 256 0)))
                 QSFP_DD_CURR_TEMP_OFFSET
  = Some (-2432).
Proof.
  edestruct (temp_signed_parts
               (<[14%nat := 0xF6]> (<[15%nat := 0x80]> (replicate 256 0)))
               QSFP_DD_CURR_TEMP_OFFSET 0xF6 0x80)
    as (t & Ht & -> & _); [lia | lia | reflexivity | reflexivity |].
  exact Ht.
Defined.

(** ** Lengths as numbers *)

Lemma cbl_asm_len_near_all (b : Z) : 0 <= b < 256 → cbl_asm_len_near b.
Proof. apply (byte_cases cbl_asm_len_near). by vm_compute. Qed.

(** X5: every cable assembly byte other than the sentinel decodes to a
    finite length between 0 and 6200 that is within one millionth of the
    magnitude times 0.1, 1, 10 or 100, and that is zero exactly when the
    magnitude bits are zero. *)
Theorem cbl_asm_len_value (id : eeprom) (b : Z) :
  0 <= b < 256 → b ≠ QSFP_DD_6300M_MAX_LEN →
  rd id QSFP_DD_CBL_ASM_LEN_OFFSET = Some b →
  ∃ v, qsfp_dd_show_cbl_asm_len id = Some (Len_km v) ∧
       SF_near v (len_tenths b # 10) (1 # 1000000) = true ∧
       SF_between v 0 6200 = true ∧
       (v = S754_zero false ↔ Z.land b QSFP_DD_LEN_VAL_MASK = 0).
Proof.
  intros Hb Hne Hrd. rewrite (cbl_asm_len_of_byte id b Hrd).
  pose proof Hne as Hne'. apply Z.eqb_neq in Hne'. rewrite Hne'.
  eexists. split; [reflexivity|]. exact (cbl_asm_len_near_all b Hb Hne).
Qed.

Lemma cbl_asm_len_value_witness :
  ∃ v, qsfp_dd_show_cbl_asm_len (<[202%nat := 0x09]> (replicate 256 0))
       = Some (Len_km v) ∧
       SF_near v (9 # 10) (1 # 1000000) = true ∧
       v ≠ F32.div (F32.of_Z 9) (F32.of_Z 10).
Proof.
  edestruct (cbl_asm_len_value (<[202%nat := 0x09]> (replicate 256 0)) 0x09)
    as (v & Hv & Hnear & _); [lia | by vm_compute | reflexivity |].
  exists v. split; [exact Hv|]. split; [exact Hnear|].
  vm_compute in Hv. injection Hv as <-. by vm_compute.
Defined.

Lemma smf_agrees_all (b : Z) : 0 <= b < 256 → smf_agrees b.
Proof. apply (byte_cases smf_agrees). by vm_compute. Qed.

(** X6: for the same byte other than 0xFF, the SMF length and the cable
    assembly length are the same number exactly when the multiplier
    code is 00 or 01 or the magnitude is zero. *)
Theorem smf_cbl_agree (id : eeprom) (b : Z) :
  0 <= b < 256 → b ≠ QSFP_DD_6300M_MAX_LEN →
  rd id QSFP_DD_CBL_ASM_LEN_OFFSET = Some b →
  rd id QSFP_DD_SMF_LEN_OFFSET = Some b →
  Len_km <$> qsfp_dd_print_smf_cbl_len id = qsfp_dd_show_cbl_asm_len id
  ↔ Z.shiftr b 6 <= 1 ∨ Z.land b QSFP_DD_LEN_VAL_MASK = 0.
Proof.
  intros Hb Hne Hc Hs.
  rewrite (cbl_asm_len_of_byte id b Hc), (smf_cbl_len_of_byte id b Hs).
  pose proof Hne as Hne'. apply Z.eqb_neq in Hne'. rewrite Hne'. simpl.
  rewrite <- (smf_agrees_all b Hb Hne). split; [by intros [= ->]|by intros ->].
Qed.

Lemma smf_cbl_agree_witness :
  let id := <[202%nat := 0x85]> (<[260%nat := 0x85]> (replicate 768 0)) in
  Len_km <$> qsfp_dd_print_smf_cbl_len id ≠ qsfp_dd_show_cbl_asm_len id.
Proof.
  intros id Heq.
  apply (smf_cbl_agree id 0x85) in Heq;
    [| lia | by vm_compute | reflexivity | reflexivity].
  vm_compute in Heq. destruct Heq as [H|H]; [by apply H|done].
Defined.

(** A test passed by the 65536 pairs holds of every two bytes. *)
Lemma byte_pair_cases (P : Z → Z → bool) :
  forallb (λ a, forallb (P a) all_bytes) all_bytes = true →
  ∀ a b, 0 <= a < 256 → 0 <= b < 256 → P a b = true.
Proof.
  intros Hall a b Ha Hb.
  pose proof (proj1 (forallb_forall _ _) Hall a
                (proj1 (list_elem_of_In _ _) (all_bytes_spec a Ha))) as Hrow.
  exact (proj1 (forallb_forall _ _) Hrow b
           (proj1 (list_elem_of_In _ _) (all_bytes_spec b Hb))).
Qed.

Lemma wavelength_near_all (msb lsb : Z) :
  0 <= msb < 256 → 0 <= lsb < 256 → wavelength_near msb lsb = true.
Proof. apply (byte_pair_cases wavelength_near). by vm_compute. Qed.

(** X17: for a technology code below the copper threshold, the
    wavelength and the tolerance shown are finite and within 10^-12 nm
    of the 16-bit raw value times 0.05 and times 0.005. *)
Theorem wavelength_value (id : eeprom) (tech nm nl tm tl : Z) :
  tech < QSFP_DD_COPPER_UNEQUAL →
  0 <= nm < 256 → 0 <= nl < 256 → 0 <= tm < 256 → 0 <= tl < 256 →
  rd id QSFP_DD_MEDIA_INTF_TECH_OFFSET = Some tech →
  rd id QSFP_DD_NOM_WAVELENGTH_MSB = Some nm →
  rd id QSFP_DD_NOM_WAVELENGTH_LSB = Some nl →
  rd id QSFP_DD_WAVELENGTH_TOL_MSB = Some tm →
  rd id QSFP_DD_WAVELENGTH_TOL_LSB = Some tl →
  ∃ nom tol,
    media <$> qsfp_dd_show_mit_compliance id = Some (Wavelength nom tol) ∧
    SF_near nom (256 * nm + nl # 20) (1 # 1000000000000) = true ∧
    SF_near tol (256 * tm + tl # 200) (1 # 1000000000000) = true.
Proof.
  intros Hlt Hnm Hnl Htm Htl Rt Rnm Rnl Rtm Rtl.
  unfold qsfp_dd_show_mit_compliance. rewrite Rt. simpl.
  apply Z.leb_gt in Hlt. rewrite Hlt, Rnm, Rnl, Rtm, Rtl. simpl.
  rewrite !lor_shiftl_bytes by done.
  eexists. eexists. split; [reflexivity|].
  pose proof (wavelength_near_all nm nl Hnm Hnl) as Hn.
  pose proof (wavelength_near_all tm tl Htm Htl) as Ht.
  unfold wavelength_near in Hn, Ht. cbv zeta in Hn, Ht.
  apply andb_prop in Hn as [Hn _]. apply andb_prop in Ht as [_ Ht]. done.
Qed.

Lemma wavelength_value_witness :
  let id := <[212%nat := 0x04]> (<[266%nat := 0x66]> (<[267%nat := 0x58]>
              (<[268%nat := 0x03]> (<[269%nat := 0xE8]> (replicate 768 0))))) in
  ∃ nom tol,
    media <$> qsfp_dd_show_mit_compliance id = Some (Wavelength nom tol) ∧
    SF_near nom (13100 # 10) (1 # 1000000000000) = true ∧
    SF_near tol (5 # 1) (1 # 1000000000000) = true.
Proof.
  intros id.
  edestruct (wavelength_value id 0x04 0x66 0x58 0x03 0xE8)
    as (nom & tol & Hm & Hn & Ht);
    [by vm_compute | lia | lia | lia | lia
     | reflexivity | reflexivity | reflexivity | reflexivity | reflexivity |].
  exists nom, tol. split; [exact Hm|].
  vm_compute in Hm. injection Hm as <- <-. split; by vm_compute.
Defined.

(** ** Technology names *)

Lemma mit_name_ok_all (tech : Z) : 0 <= tech < 256 → mit_name_ok tech.
Proof. apply (byte_cases mit_name_ok). by vm_compute. Qed.

(** X7: the name table and the branch of the technology report: the
    codes 0x0A to 0x0F carry a copper cable name and the attenuations,
    the codes below carry another name and the wavelengths, and the
    codes above 0x0F carry the attenuations and no name at all. *)
Theorem mit_name_and_branch (id : eeprom) (tech : Z) (r : mit_report) :
  0 <= tech < 256 →
  rd id QSFP_DD_MEDIA_INTF_TECH_OFFSET = Some tech →
  qsfp_dd_show_mit_compliance id = Some r →
  (technology_name r = None ↔ QSFP_DD_COPPER_LINEAR_EQUAL < tech) ∧
  (is_copper_name (technology_name r) = true ↔
   QSFP_DD_COPPER_UNEQUAL <= tech <= QSFP_DD_COPPER_LINEAR_EQUAL) ∧
  ((∃ a5 a7 a12 a25, media r = Attenuation a5 a7 a12 a25) ↔
   QSFP_DD_COPPER_UNEQUAL <= tech).
Proof.
  intros Ht Hrd Hr. destruct (mit_name_ok_all tech Ht) as [Hnone Hcopper].
  unfold qsfp_dd_show_mit_compliance in Hr. rewrite Hrd in Hr. simpl in Hr.
  destruct (Z.leb_spec QSFP_DD_COPPER_UNEQUAL tech) as [Hge|Hlt].
  - destruct (rd id QSFP_DD_COPPER_ATT_5GHZ) as [a5|]; [simpl in Hr|done].
    destruct (rd id QSFP_DD_COPPER_ATT_7GHZ) as [a7|]; [simpl in Hr|done].
    destruct (rd id QSFP_DD_COPPER_ATT_12P9GHZ) as [a12|]; [simpl in Hr|done].
    destruct (rd id QSFP_DD_COPPER_ATT_25P8GHZ) as [a25|]; [simpl in Hr|done].
    injection Hr as <-. simpl. split; [done|]. split; [done|].
    split; [done|eauto].
  - destruct (rd id QSFP_DD_NOM_WAVELENGTH_MSB) as [b1|]; [simpl in Hr|done].
    destruct (rd id QSFP_DD_NOM_WAVELENGTH_LSB) as [b2|]; [simpl in Hr|done].
    destruct (rd id QSFP_DD_WAVELENGTH_TOL_MSB) as [b3|]; [simpl in Hr|done].
    destruct (rd id QSFP_DD_WAVELENGTH_TOL_LSB) as [b4|]; [simpl in Hr|done].
    injection Hr as <-. simpl. split; [done|]. split; [done|].
    split; [by intros (? & ? & ? & ? & ?)|lia].
Qed.

Lemma mit_name_and_branch_witness :
  ∃ r, qsfp_dd_show_mit_compliance (<[212%nat := 0x10]> (replicate 256 0))
       = Some r ∧
       technology_name r = None ∧ media r = Attenuation 0 0 0 0.
Proof.
  eexists. split; [reflexivity|].
  edestruct (mit_name_and_branch (<[212%nat := 0x10]> (replicate 256 0)) 0x10)
    as (Hnone & _ & _); [lia | reflexivity | reflexivity |].
  split; [apply Hnone; by vm_compute | reflexivity].
Defined.

(** ** Alarms of one channel *)

Lemma mask_bit (x ch : Z) :
  0 <= ch < 8 → to_bool (Z.land x (to_u8 (Z.shiftl 1 ch))) = Z.testbit x ch.
Proof.
  intros Hch. unfold to_bool.
  assert (Hmask : to_u8 (Z.shiftl 1 ch) = 2 ^ ch).
  { rewrite Z.shiftl_1_l. pattern ch. apply (small_cases 8 ch); [done|].
    repeat constructor. }
  rewrite Hmask. apply land_pow2_testbit. lia.
Qed.

Lemma set_aw_row (ch : Z) (aw : list (list bool)) (a b c d : bool)
    (row : list bool) :
  aw !! Z.to_nat ch = Some row → length row = 4%nat →
  set_aw ch LW d (set_aw ch HW c (set_aw ch LA b (set_aw ch HA a aw)))
  !! Z.to_nat ch = Some [a; b; c; d].
Proof.
  intros Hrow Hlen. unfold set_aw. rewrite !list_lookup_alter_eq, Hrow.
  do 4 (destruct row as [|? row]; [done|]). by destruct row.
Qed.

Lemma set_aw_other (ch : Z) (aw : list (list bool)) (a b c d : bool)
    (j : nat) :
  j ≠ Z.to_nat ch →
  set_aw ch LW d (set_aw ch HW c (set_aw ch LA b (set_aw ch HA a aw))) !! j
  = aw !! j.
Proof. intros Hj. unfold set_aw. by rewrite !list_lookup_alter_ne. Qed.

(** X8: reading the alarms of channel [ch] writes one row of one array:
    with mode [QSFP_DD_READ_TX] row [ch] of [txaw], with any other mode
    row [ch] of [rxaw]; the row becomes bit [ch] of the four alarm bytes
    of that side in the order HA, LA, HW, LW, and the other rows, the
    other array, the channel monitors and the thresholds stay. *)
Theorem read_aw_for_channel_frame (id : eeprom) (ch mode : Z)
    (sd sd' : qsfp_dd_diags) :
  0 <= ch < 8 →
  qsfp_dd_read_aw_for_channel id ch mode sd = Some sd' →
  let d := if mode =? QSFP_DD_READ_TX then Tx else Rx in
  let old := match d with Tx => txaw sd | Rx => rxaw sd end in
  let new := match d with Tx => txaw sd' | Rx => rxaw sd' end in
  scd sd' = scd sd ∧ sfp_voltage sd' = sfp_voltage sd ∧
  sfp_temp sd' = sfp_temp sd ∧ bias_cur sd' = bias_cur sd ∧
  tx_power sd' = tx_power sd ∧ rx_power sd' = rx_power sd ∧
  match d with Tx => rxaw sd' = rxaw sd | Rx => txaw sd' = txaw sd end ∧
  (∀ j, j ≠ Z.to_nat ch → new !! j = old !! j) ∧
  (∀ row, old !! Z.to_nat ch = Some row → length row = 4%nat →
     ∃ ha la hw lw,
       rd id (aw_offset d HA) = Some ha ∧ rd id (aw_offset d LA) = Some la ∧
       rd id (aw_offset d HW) = Some hw ∧ rd id (aw_offset d LW) = Some lw ∧
       new !! Z.to_nat ch
       = Some [Z.testbit ha ch; Z.testbit la ch;
               Z.testbit hw ch; Z.testbit lw ch]).
Proof.
  intros Hch Hr. unfold qsfp_dd_read_aw_for_channel in Hr.
  destruct (mode =? QSFP_DD_READ_TX); cbv zeta.
  - destruct (rd id QSFP_DD_TX_HA_OFFSET) as [ha|] eqn:Eha; [simpl in Hr|done].
    destruct (rd id QSFP_DD_TX_LA_OFFSET) as [la|] eqn:Ela; [simpl in Hr|done].
    destruct (rd id QSFP_DD_TX_HW_OFFSET) as [hw|] eqn:Ehw; [simpl in Hr|done].
    destruct (rd id QSFP_DD_TX_LW_OFFSET) as [lw|] eqn:Elw; [simpl in Hr|done].
    injection Hr as <-. simpl. do 7 (split; [reflexivity|]). split.
    + intros j Hj. by apply set_aw_other.
    + intros row Hrow Hlen. exists ha, la, hw, lw.
      do 4 (split; [assumption|]). rewrite <- !(mask_bit _ ch) by done.
      by apply set_aw_row with row.
  - destruct (rd id QSFP_DD_RX_HA_OFFSET) as [ha|] eqn:Eha; [simpl in Hr|done].
    destruct (rd id QSFP_DD_RX_LA_OFFSET) as [la|] eqn:Ela; [simpl in Hr|done].
    destruct (rd id QSFP_DD_RX_HW_OFFSET) as [hw|] eqn:Ehw; [simpl in Hr|done].
    destruct (rd id QSFP_DD_RX_LW_OFFSET) as [lw|] eqn:Elw; [simpl in Hr|done].
    injection Hr as <-. simpl. do 7 (split; [reflexivity|]). split.
    + intros j Hj. by apply set_aw_other.
    + intros row Hrow Hlen. exists ha, la, hw, lw.
      do 4 (split; [assumption|]). rewrite <- !(mask_bit _ ch) by done.
      by apply set_aw_row with row.
Qed.

Lemma read_aw_for_channel_frame_witness :
  ∃ sd', qsfp_dd_read_aw_for_channel (<[661%nat := 0x04]> (replicate 768 0))
           2 7 sd_zero = Some sd' ∧
         txaw sd' = txaw sd_zero ∧
         rxaw sd' !! 2%nat = Some [true; false; false; false].
Proof.
  eexists. split; [reflexivity|].
  edestruct (read_aw_for_channel_frame
               (<[661%nat := 0x04]> (replicate 768 0)) 2 7 sd_zero)
    as (_ & _ & _ & _ & _ & _ & Hother & _ & Hrow); [lia | reflexivity |].
  split; [exact Hother|].
  edestruct (Hrow (replicate 4 false))
    as (ha & la & hw & lw & Hha & Hla & Hhw & Hlw & Hnew);
    [reflexivity | reflexivity |].
  vm_compute in Hha, Hla, Hhw, Hlw.
  injection Hha as <-. injection Hla as <-.
  injection Hhw as <-. injection Hlw as <-. exact Hnew.
Defined.

(** ** The parsed thresholds *)

Lemma classes_lookup (c : Z) : 0 <= c < 4 → classes !! Z.to_nat c = Some c.
Proof.
  intros Hc. pattern c. apply (small_cases 4 c); [done|].
  repeat constructor.
Qed.

Lemma to_s16_pair_at (id : eeprom) (off : Z) :
  wf_eeprom id →
  to_s16 (pair_at id off) =
    if u16_be id off <? 0x8000 then u16_be id off else u16_be id off - 0x10000.
Proof. intros Hwf. unfold to_s16. by rewrite pair_at_wf. Qed.

(** X9: after the parse, entry [c] (HA, LA, HW, LW) of each threshold
    array is the big-endian pair at the start offset of its quantity
    plus [c * 2]; the temperature is taken as a signed 16-bit number,
    the four others as unsigned ones. *)
Theorem thresholds_layout (id : eeprom) (sd : qsfp_dd_diags) (c : Z) :
  wf_eeprom id → 0 <= c < 4 →
  qsfp_dd_parse_diagnostics id sd_zero = Some sd →
  ∃ txp rxp bias temp volt,
    be16_at id (QSFP_DD_TXPW_THRS_START_OFFSET + c * 2) txp ∧
    be16_at id (QSFP_DD_RXPW_THRS_START_OFFSET + c * 2) rxp ∧
    be16_at id (QSFP_DD_TXBI_THRS_START_OFFSET + c * 2) bias ∧
    be16_at id (QSFP_DD_TEMP_THRS_START_OFFSET + c * 2) temp ∧
    be16_at id (QSFP_DD_VOLT_THRS_START_OFFSET + c * 2) volt ∧
    tx_power sd !! Z.to_nat c = Some txp ∧
    rx_power sd !! Z.to_nat c = Some rxp ∧
    bias_cur sd !! Z.to_nat c = Some bias ∧
    sfp_temp sd !! Z.to_nat c
      = Some (if temp <? 0x8000 then temp else temp - 0x10000) ∧
    sfp_voltage sd !! Z.to_nat c = Some volt.
Proof.
  intros Hwf Hc Hparse.
  apply parse_diagnostics_Some in Hparse as [Hlen ->].
  destruct (diags_spec_thresholds id) as (Htx & Hrx & Hbi & Hte & Hvo).
  cbv zeta in Htx, Hrx, Hbi, Hte, Hvo. rewrite Htx, Hrx, Hbi, Hte, Hvo.
  rewrite !list_lookup_fmap, classes_lookup by done.
  cbn [fmap option_fmap option_map].
  rewrite !pair_at_wf, to_s16_pair_at by done.
  eexists _, _, _, _, _.
  unfold QSFP_DD_TXPW_THRS_START_OFFSET, QSFP_DD_RXPW_THRS_START_OFFSET,
    QSFP_DD_TXBI_THRS_START_OFFSET, QSFP_DD_TEMP_THRS_START_OFFSET,
    QSFP_DD_VOLT_THRS_START_OFFSET, PAG02H_OFFSET.
  unfold DIAG_BYTES in Hlen.
  repeat (split; [apply (be16_at_u16_be id _ 714 Hlen); lia|]).
  repeat split.
Qed.

Lemma thresholds_layout_witness :
  let id := <[384%nat := 0xFB]> (<[385%nat := 0x80]> smf_768) in
  ∃ sd, qsfp_dd_parse_diagnostics id sd_zero = Some sd ∧
        sfp_temp sd !! 0%nat = Some (-1152).
Proof.
  intros id. exists (diags_spec id sd_zero).
  assert (Hwf : wf_eeprom id).
  { unfold wf_eeprom. apply (bool_decide_unpack _). by vm_compute. }
  assert (Hp : qsfp_dd_parse_diagnostics id sd_zero
               = Some (diags_spec id sd_zero)) by (by vm_compute).
  split; [exact Hp|].
  destruct (thresholds_layout id (diags_spec id sd_zero) 0 Hwf ltac:(lia) Hp)
    as (txp & rxp & bias & temp & volt & _ & _ & _ & Hbe & _ & _ & _ & _
        & Ht & _).
  change (Z.to_nat 0) with 0%nat in Ht. rewrite Ht.
  destruct Hbe as (hi & lo & Hhi & Hlo & ->).
  vm_compute in Hhi, Hlo. injection Hhi as <-. injection Hlo as <-.
  reflexivity.
Defined.

(** ** The parse and the structure it fills *)

Lemma length_4_inv {A : Type} (l : list A) :
  length l = 4%nat → ∃ a b c d, l = [a; b; c; d].
Proof.
  intros H. do 4 (destruct l as [|? l]; [done|]).
  destruct l; [eauto|done].
Qed.

Lemma length_8_inv {A : Type} (l : list A) :
  length l = 8%nat → ∃ a b c d e f g h, l = [a; b; c; d; e; f; g; h].
Proof.
  intros H. do 8 (destruct l as [|? l]; [done|]).
  destruct l; [by eexists _, _, _, _, _, _, _, _|done].
Qed.

Lemma rows_8_4_inv (aw : list (list bool)) :
  length aw = 8%nat → Forall (λ row, length row = 4%nat) aw →
  ∃ rows : list (bool * bool * bool * bool),
    length rows = 8%nat ∧ aw = (λ '(a, b, c, d), [a; b; c; d]) <$> rows.
Proof.
  intros Hlen Hrows.
  assert (Hex : ∃ rows : list (bool * bool * bool * bool),
            aw = (λ '(a, b, c, d), [a; b; c; d]) <$> rows).
  { clear Hlen. induction Hrows as [|row aw Hrow _ (rows & ->)].
    - by exists [].
    - destruct (length_4_inv row Hrow) as (a & b & c & d & ->).
      by exists ((a, b, c, d) :: rows). }
  destruct Hex as (rows & ->). exists rows.
  by rewrite length_fmap in Hlen.
Qed.

Lemma diags_spec_overwrites (id : eeprom) (sd0 : qsfp_dd_diags) :
  sd_shape sd0 → diags_spec id sd0 = diags_spec id sd_zero.
Proof.
  intros [Hv Ht Hb Htx Hrx Hra Hrar Hta Htar Hs].
  destruct sd0 as [v t b tx rx ra ta s]. simpl in *.
  destruct (length_4_inv v Hv) as (?&?&?&?&->).
  destruct (length_4_inv t Ht) as (?&?&?&?&->).
  destruct (length_4_inv b Hb) as (?&?&?&?&->).
  destruct (length_4_inv tx Htx) as (?&?&?&?&->).
  destruct (length_4_inv rx Hrx) as (?&?&?&?&->).
  destruct (length_8_inv s Hs) as (?&?&?&?&?&?&?&?&->).
  destruct (rows_8_4_inv ra Hra Hrar) as (rr & Hrr & ->).
  destruct (rows_8_4_inv ta Hta Htar) as (tr & Htr & ->).
  destruct (length_8_inv rr Hrr) as
    ([[[? ?] ?] ?]&[[[? ?] ?] ?]&[[[? ?] ?] ?]&[[[? ?] ?] ?]&
     [[[? ?] ?] ?]&[[[? ?] ?] ?]&[[[? ?] ?] ?]&[[[? ?] ?] ?]&->).
  destruct (length_8_inv tr Htr) as
    ([[[? ?] ?] ?]&[[[? ?] ?] ?]&[[[? ?] ?] ?]&[[[? ?] ?] ?]&
     [[[? ?] ?] ?]&[[[? ?] ?] ?]&[[[? ?] ?] ?]&[[[? ?] ?] ?]&->).
  reflexivity.
Qed.

Lemma sd_zero_shape : sd_shape sd_zero.
Proof. split; try reflexivity; repeat constructor. Qed.

(** X10: the parse overwrites every entry of the structure: whatever a
    structure with arrays of the declared sizes held before, the result
    is the one obtained from the zeroed structure, and its arrays have
    the declared sizes again. *)
Theorem parse_diagnostics_overwrites (id : eeprom) (sd0 : qsfp_dd_diags) :
  sd_shape sd0 →
  qsfp_dd_parse_diagnostics id sd0 = qsfp_dd_parse_diagnostics id sd_zero ∧
  ∀ sd, qsfp_dd_parse_diagnostics id sd0 = Some sd → sd_shape sd.
Proof.
  intros Hshape.
  assert (Heq : qsfp_dd_parse_diagnostics id sd0
                = qsfp_dd_parse_diagnostics id sd_zero).
  { destruct (Nat.le_gt_cases DIAG_BYTES (length id)) as [Hle|Hgt].
    - rewrite !parse_diagnostics_eq by done.
      by rewrite diags_spec_overwrites.
    - by rewrite !parse_diagnostics_None. }
  split; [exact Heq|]. intros sd Hsd. rewrite Heq in Hsd.
  apply parse_diagnostics_Some in Hsd as [_ ->].
  split; try reflexivity; repeat constructor.
Qed.

Lemma parse_diagnostics_overwrites_witness :
  let sd0 := upd_scd (<[3%nat := qsfp_dd_channel_diags.mk 7 8 9]>)
               (upd_rxaw (<[5%nat := [true; true; true; true]]>) sd_zero) in
  qsfp_dd_parse_diagnostics smf_768 sd0
  = qsfp_dd_parse_diagnostics smf_768 sd_zero.
Proof.
  intros sd0. apply (parse_diagnostics_overwrites smf_768 sd0).
  split; try reflexivity; repeat constructor.
Defined.

(** ** What the parse reads *)

Lemma for_pure_ext {S : Type} (f g : Z → S → S) :
  ∀ (n : nat) (i : Z) (s : S),
    (∀ j s', i <= j < i + Z.of_nat n → f j s' = g j s') →
    for_pure n i f s = for_pure n i g s.
Proof.
  induction n as [|n IH]; intros i s Hfg; [done|].
  simpl. rewrite Hfg by lia. apply IH. intros j s' Hj. apply Hfg. lia.
Qed.

Lemma byte_at_agree (id id' : eeprom) (off : Z) :
  rd id off = rd id' off → byte_at id off = byte_at id' off.
Proof. unfold byte_at. by intros ->. Qed.

Lemma channel_spec_local (id id' : eeprom) (i : Z) :
  (∀ off, diag_footprint off = true → byte_at id off = byte_at id' off) →
  0 <= i < 8 → ∀ sd, channel_spec id i sd = channel_spec id' i sd.
Proof.
  intros Hb Hi. pattern i. apply (small_cases 8 i); [done|].
  repeat constructor; intros sd; unfold channel_spec, pair_at, aw_bit;
    rewrite !Hb by reflexivity; reflexivity.
Qed.

Lemma threshold_spec_local (id id' : eeprom) (i : Z) :
  (∀ off, diag_footprint off = true → byte_at id off = byte_at id' off) →
  0 <= i < 4 → ∀ sd, threshold_spec id i sd = threshold_spec id' i sd.
Proof.
  intros Hb Hi. pattern i. apply (small_cases 4 i); [done|].
  repeat constructor; intros sd; unfold threshold_spec, pair_at;
    rewrite !Hb by reflexivity; reflexivity.
Qed.

Lemma diag_footprint_range (off : Z) :
  diag_footprint off = true → 384 <= off <= 713.
Proof.
  unfold diag_footprint, tx_aw_footprint, rest_footprint, in_range,
    QSFP_DD_TX_HA_OFFSET, QSFP_DD_TX_LW_OFFSET, QSFP_DD_RX_HA_OFFSET,
    QSFP_DD_RX_LW_OFFSET, QSFP_DD_TEMP_THRS_START_OFFSET,
    QSFP_DD_VOLT_THRS_START_OFFSET, QSFP_DD_TXPW_THRS_START_OFFSET,
    QSFP_DD_RXPW_THRS_START_OFFSET, QSFP_DD_TX_PWR_START_OFFSET,
    QSFP_DD_RX_PWR_START_OFFSET, PAG02H_OFFSET, PAG11H_OFFSET.
  lia.
Qed.

(** X11: the parse depends on the thresholds of page 2 (offsets 0x180
    to 0x18F and 0x1B0 to 0x1C7) and on the alarm bytes and lane
    monitors of page 0x11 (0x28B to 0x28E, 0x295 to 0x298, 0x29A to
    0x2C9) only: two memories that agree there parse alike, whatever
    pages 0, 1 and 0x10 hold. *)
Theorem parse_diagnostics_footprint (id id' : eeprom) (sd0 : qsfp_dd_diags) :
  (∀ off, diag_footprint off = true → rd id off = rd id' off) →
  qsfp_dd_parse_diagnostics id sd0 = qsfp_dd_parse_diagnostics id' sd0.
Proof.
  intros Hrd.
  assert (Hb : ∀ off, diag_footprint off = true →
                      byte_at id off = byte_at id' off).
  { intros off Hoff. apply byte_at_agree. by apply Hrd. }
  pose proof (Hrd 713 eq_refl) as Hlast.
  destruct (Nat.le_gt_cases DIAG_BYTES (length id)) as [Hle|Hgt].
  - assert (Hle' : (DIAG_BYTES ≤ length id')%nat).
    { destruct (Nat.le_gt_cases DIAG_BYTES (length id')) as [?|Hgt]; [done|].
      rewrite (rd_out id' 713) in Hlast by (unfold DIAG_BYTES in Hgt; lia).
      apply rd_None in Hlast. unfold DIAG_BYTES in Hle. lia. }
    rewrite !parse_diagnostics_eq by done. f_equal. unfold diags_spec.
    rewrite (for_pure_ext (channel_spec id) (channel_spec id') 8 0).
    + apply for_pure_ext. intros j s' Hj.
      apply threshold_spec_local; [done|lia].
    + intros j s' Hj. apply channel_spec_local; [done|lia].
  - assert (Hgt' : (length id' < DIAG_BYTES)%nat).
    { rewrite (rd_out id 713) in Hlast by (unfold DIAG_BYTES in Hgt; lia).
      symmetry in Hlast. apply rd_None in Hlast. unfold DIAG_BYTES. lia. }
    by rewrite !parse_diagnostics_None.
Qed.

Lemma parse_diagnostics_footprint_witness :
  qsfp_dd_parse_diagnostics (<[260%nat := 0xFF]> (<[85%nat := 0]> smf_768))
                            sd_zero
  = qsfp_dd_parse_diagnostics smf_768 sd_zero.
Proof.
  apply (parse_diagnostics_footprint
           (<[260%nat := 0xFF]> (<[85%nat := 0]> smf_768)) smf_768).
  intros off Hoff.
  pose proof (diag_footprint_range off Hoff).
  unfold rd. destruct (off <? 0); [reflexivity|].
  rewrite !list_lookup_insert_ne by lia. reflexivity.
Defined.

(** ** The gate, in general *)

(** X12: whenever the optical power report exists, the channels and the
    thresholds are in it exactly when the module type is MMF, or is
    SMF, or the declared length is 768; so for a fibre module the
    declared length plays no part, and with a declared length of 768 the
    module type plays none. *)
Theorem diagnostics_gate_rule (id : eeprom) (eeprom_len mt : Z)
    (r : optical_pwr_report) :
  0 <= mt < 256 →
  rd id QSFP_DD_MODULE_TYPE_OFFSET = Some mt →
  qsfp_dd_show_sig_optical_pwr id eeprom_len = Some r →
  is_Some (diagnostics r) ↔
  mt = QSFP_DD_MT_MMF ∨ mt = QSFP_DD_MT_SMF
  ∨ eeprom_len = QSFP_DD_EEPROM_5PAG.
Proof.
  intros Hmt Hrd Hr. rewrite (gate_rule id eeprom_len r Hr).
  unfold byte_at. rewrite Hrd. simpl. rewrite to_u8_small by done.
  apply gate_returns_spec.
Qed.

Lemma diagnostics_gate_rule_witness :
  ∃ r, qsfp_dd_show_sig_optical_pwr copper_768 640 = Some r ∧
       ¬ is_Some (diagnostics r).
Proof.
  eexists. split; [by vm_compute|]. intros Hsome.
  apply (diagnostics_gate_rule copper_768 640 0x03) in Hsome;
    [| lia | reflexivity | by vm_compute].
  destruct Hsome as [H|[H|H]]; discriminate H.
Defined.

(** ** What is printed of the alarms and the thresholds *)

Lemma byte_at_flip_other (id : eeprom) (off k off' : Z) :
  0 <= off → off' ≠ off → byte_at (flip_bit id off k) off' = byte_at id off'.
Proof.
  intros Hoff Hne. unfold byte_at, rd, flip_bit.
  destruct (Z.ltb_spec off' 0) as [?|?]; [done|].
  rewrite list_lookup_alter_ne by lia. done.
Qed.

(** The printed values come from the bytes outside the transmit alarm
    bytes. *)
Lemma printed_local (id id' : eeprom) :
  (∀ off, rest_footprint off = true → byte_at id off = byte_at id' off) →
  printed (show_diag_lines (diags_spec id sd_zero))
  = printed (show_diag_lines (diags_spec id' sd_zero)).
Proof.
  intros Hb. unfold printed, show_diag_lines, qsfp_dd_show_thresholds.
  cbn [tx_bias_monitor tx_output_power rx_input_power rx_aw_lines
       tx_aw_lines thresholds].
  destruct (diags_spec_thresholds id) as (Htx & Hrx & Hbi & Hte & Hvo).
  destruct (diags_spec_thresholds id') as (Htx' & Hrx' & Hbi' & Hte' & Hvo').
  cbv zeta in *.
  rewrite Htx, Hrx, Hbi, Hte, Hvo, Htx', Hrx', Hbi', Hte', Hvo'.
  rewrite !diags_spec_scd, !diags_spec_rxaw.
  cbn [fmap list_fmap lanes classes lookup_total list_lookup_total
       HA LA HW LW qsfp_dd_channel_diags.bias_cur
       qsfp_dd_channel_diags.tx_power qsfp_dd_channel_diags.rx_power].
  unfold pair_at, aw_bit. rewrite !Hb by reflexivity. reflexivity.
Qed.

(** X13: the transmit alarm and warning bytes never reach the output:
    inverting any bit of any of the four leaves the temperature, the
    voltage, every monitor line, every alarm line (those labelled Tx
    too, which show the receive flags) and every threshold line as they
    were. *)
Theorem tx_alarm_bytes_not_printed (id : eeprom) (eeprom_len : Z)
    (cls : nat) (k : Z) :
  (cls < 4)%nat →
  printed_report <$>
    qsfp_dd_show_sig_optical_pwr (flip_bit id (aw_offset Tx cls) k) eeprom_len
  = printed_report <$> qsfp_dd_show_sig_optical_pwr id eeprom_len.
Proof.
  intros Hcls. set (id' := flip_bit id (aw_offset Tx cls) k).
  assert (Hb : ∀ off, 0 <= off → tx_aw_footprint off = false →
                      byte_at id' off = byte_at id off).
  { intros off Hoff Hfp. apply byte_at_flip_other.
    - pose proof (aw_offset_range Tx cls). lia.
    - intros ->. revert Hfp.
      do 3 (destruct cls as [|cls]; [by vm_compute|]).
      destruct cls; [by vm_compute|lia]. }
  assert (Hlen : length id' = length id) by apply length_flip_bit.
  destruct (Nat.le_gt_cases PAGE0_BYTES (length id)) as [Hle|Hgt].
  - rewrite !show_sig_optical_pwr_eq by (by rewrite ?Hlen). cbv zeta.
    unfold pair_at. rewrite !Hb by (done || lia).
    destruct (gate_returns _ _); [done|].
    destruct (Nat.le_gt_cases DIAG_BYTES (length id)) as [Hd|Hd].
    + rewrite !parse_diagnostics_eq by (by rewrite ?Hlen).
      cbn [mbind option_bind fmap option_fmap option_map].
      unfold printed_report.
      cbn [module_temperature module_voltage diagnostics
           fmap option_fmap option_map].
      rewrite (printed_local id' id); [done|].
      intros off Hoff. apply Hb.
      * pose proof (diag_footprint_range off) as Hr.
        unfold diag_footprint in Hr. rewrite Hoff, orb_true_r in Hr.
        specialize (Hr eq_refl). lia.
      * revert Hoff. unfold rest_footprint, tx_aw_footprint, in_range,
          QSFP_DD_TX_HA_OFFSET, QSFP_DD_TX_LW_OFFSET, QSFP_DD_RX_HA_OFFSET,
          QSFP_DD_RX_LW_OFFSET, QSFP_DD_TEMP_THRS_START_OFFSET,
          QSFP_DD_VOLT_THRS_START_OFFSET, QSFP_DD_TXPW_THRS_START_OFFSET,
          QSFP_DD_RXPW_THRS_START_OFFSET, QSFP_DD_TX_PWR_START_OFFSET,
          QSFP_DD_RX_PWR_START_OFFSET, PAG02H_OFFSET, PAG11H_OFFSET.
        lia.
    + by rewrite !parse_diagnostics_None by (by rewrite ?Hlen).
  - by rewrite !show_sig_optical_pwr_short by (by rewrite ?Hlen).
Qed.

Lemma tx_alarm_bytes_not_printed_witness :
  printed_report <$>
    qsfp_dd_show_sig_optical_pwr (flip_bit smf_768 (aw_offset Tx HW) 6) 768
  = printed_report <$> qsfp_dd_show_sig_optical_pwr smf_768 768
  ∧ flip_bit smf_768 (aw_offset Tx HW) 6 ≠ smf_768.
Proof.
  split; [|by vm_compute].
  apply (tx_alarm_bytes_not_printed smf_768 768 HW 6). unfold HW. lia.
Defined.

(** X14: the threshold lines are twenty, in the groups bias current,
    output power, temperature, voltage and rx power, each with the
    classes high alarm, low alarm, high warning and low warning: line
    [4 * q + c] carries the label of quantity [q] and class [c] and the
    big-endian pair at the start offset of that quantity plus [c * 2],
    signed for the temperature. *)
Theorem show_thresholds_lines (id : eeprom) (sd : qsfp_dd_diags) (q c : nat) :
  wf_eeprom id → (q < 5)%nat → (c < 4)%nat →
  qsfp_dd_parse_diagnostics id sd_zero = Some sd →
  length (qsfp_dd_show_thresholds sd) = 20%nat ∧
  ∃ u, be16_at id (threshold_base q + Z.of_nat c * 2) u ∧
       qsfp_dd_show_thresholds sd !! (4 * q + c)%nat
       = Some (threshold_macro q,
               threshold_quantity q +:+ " " +:+ threshold_class c
                 +:+ " threshold",
               threshold_value q u).
Proof.
  intros Hwf Hq Hc Hparse. split; [reflexivity|].
  apply parse_diagnostics_Some in Hparse as [Hlen ->].
  unfold DIAG_BYTES in Hlen.
  exists (u16_be id (threshold_base q + Z.of_nat c * 2)). split.
  { assert (384 <= threshold_base q <= 448).
    { do 4 (destruct q as [|q]; [by vm_compute|]). by vm_compute. }
    apply (be16_at_u16_be id _ 714 Hlen); lia. }
  destruct (diags_spec_thresholds id) as (Htx & Hrx & Hbi & Hte & Hvo).
  cbv zeta in Htx, Hrx, Hbi, Hte, Hvo. unfold qsfp_dd_show_thresholds.
  rewrite Htx, Hrx, Hbi, Hte, Hvo.
  do 5 (destruct q as [|q]; [
    do 4 (destruct c as [|c]; [
      cbn [lookup list_lookup Nat.mul Nat.add fmap list_fmap classes
           lookup_total list_lookup_total HA LA HW LW threshold_value
           threshold_macro];
      rewrite ?to_s16_pair_at, ?pair_at_wf by done; reflexivity |]);
    lia |]).
  lia.
Qed.

Lemma show_thresholds_lines_witness :
  let id := <[384%nat := 0xFB]> (<[385%nat := 0x80]> smf_768) in
  ∃ sd, qsfp_dd_parse_diagnostics id sd_zero = Some sd ∧
        qsfp_dd_show_thresholds sd !! 8%nat
        = Some (TEMP, "Module temperature high alarm threshold"%string, -1152).
Proof.
  intros id. exists (diags_spec id sd_zero).
  assert (Hwf : wf_eeprom id).
  { unfold wf_eeprom. apply (bool_decide_unpack _). by vm_compute. }
  assert (Hp : qsfp_dd_parse_diagnostics id sd_zero
               = Some (diags_spec id sd_zero)) by (by vm_compute).
  split; [exact Hp|].
  destruct (show_thresholds_lines id (diags_spec id sd_zero) 2 0 Hwf
              ltac:(lia) ltac:(lia) Hp) as (_ & u & Hbe & Hline).
  change (4 * 2 + 0)%nat with 8%nat in Hline. rewrite Hline.
  destruct Hbe as (hi & lo & Hhi & Hlo & ->).
  vm_compute in Hhi, Hlo. injection Hhi as <-. injection Hlo as <-.
  reflexivity.
Defined.

(** ** The whole report *)

Lemma rd_is_Some (id : eeprom) (off : Z) :
  0 <= off < Z.of_nat (length id) → is_Some (rd id off).
Proof.
  intros Hoff. destruct (rd id off) eqn:E; [eauto|].
  apply rd_None in E. lia.
Qed.

Section ShowAllContract.

Context {ext : Type}.
Variable sff8024_show_identifier : eeprom → Z → option ext.
Variable sff8024_show_connector : eeprom → Z → option ext.
Variable sff8024_show_oui : eeprom → Z → option ext.
Variable sff_show_value_with_unit :
  eeprom → Z → string → Z → string → option ext.
Variable sff_show_ascii : eeprom → Z → Z → string → option ext.

(** The printers of sff-common.c return when the bytes they are pointed
    at are in the memory: one byte for the identifier, the connector and
    a value with unit, three for the OUI, a range for a text. *)
Hypothesis identifier_returns : ∀ id off,
  0 <= off < Z.of_nat (length id) → is_Some (sff8024_show_identifier id off).
Hypothesis connector_returns : ∀ id off,
  0 <= off < Z.of_nat (length id) → is_Some (sff8024_show_connector id off).
Hypothesis oui_returns : ∀ id off,
  0 <= off → off + 2 < Z.of_nat (length id) →
  is_Some (sff8024_show_oui id off).
Hypothesis value_returns : ∀ id reg name mult unit,
  0 <= reg < Z.of_nat (length id) →
  is_Some (sff_show_value_with_unit id reg name mult unit).
Hypothesis ascii_returns : ∀ id first last name,
  0 <= first <= last → last < Z.of_nat (length id) →
  is_Some (sff_show_ascii id first last name).

Lemma show_all_page_1_present (id : eeprom) (eeprom_len : Z) :
  (291 ≤ length id)%nat →
  qsfp_dd_show_all sff8024_show_identifier sff8024_show_connector
    sff8024_show_oui sff_show_value_with_unit sff_show_ascii id eeprom_len
  = None
  ↔ qsfp_dd_show_sig_optical_pwr id eeprom_len = None.
Proof.
  intros Hlen. unfold qsfp_dd_show_all.
  assert (Hin : ∀ off, 0 <= off < 291 → 0 <= off < Z.of_nat (length id))
    by (intros; lia).
  destruct (identifier_returns id QSFP_DD_ID_OFFSET) as [x1 H1];
    [by apply Hin|].
  unfold qsfp_dd_show_identifier. rewrite H1. simpl.
  unfold qsfp_dd_show_power_info. reads_in_range Hlen.
  destruct (connector_returns id QSFP_DD_CTOR_OFFSET) as [x2 H2];
    [by apply Hin|].
  unfold qsfp_dd_show_connector. rewrite H2. simpl.
  destruct (qsfp_dd_show_cbl_asm_len id) as [x3|] eqn:H3.
  2: { apply show_cbl_asm_len_None in H3.
       change QSFP_DD_CBL_ASM_LEN_OFFSET with 202 in H3. lia. }
  simpl.
  destruct (qsfp_dd_show_sig_integrity id) as [x4|] eqn:H4.
  2: { apply show_sig_integrity_None in H4.
       change QSFP_DD_SIG_INTEG_RX_OFFSET with 290 in H4. lia. }
  simpl.
  destruct (qsfp_dd_show_mit_compliance id) as [x5|] eqn:H5.
  2: { apply show_mit_compliance_None in H5.
       change QSFP_DD_MEDIA_INTF_TECH_OFFSET with 212 in H5.
       change QSFP_DD_WAVELENGTH_TOL_LSB with 269 in H5. lia. }
  simpl.
  destruct (qsfp_dd_show_sig_optical_pwr id eeprom_len) as [x6|]; [|done].
  simpl. split; [|done]. intros Hnone. exfalso. revert Hnone.
  unfold qsfp_dd_show_link_len.
  destruct (qsfp_dd_print_smf_cbl_len id) as [x7|] eqn:H7.
  2: { apply print_smf_cbl_len_None in H7.
       change QSFP_DD_SMF_LEN_OFFSET with 260 in H7. lia. }
  simpl.
  destruct (value_returns id QSFP_DD_OM5_LEN_OFFSET "Length (OM5)" 2 "m")
    as [v5 ->]; [by apply Hin|].
  destruct (value_returns id QSFP_DD_OM4_LEN_OFFSET "Length (OM4)" 2 "m")
    as [v4 ->]; [by apply Hin|].
  destruct (value_returns id QSFP_DD_OM3_LEN_OFFSET
              "Length (OM3 50/125um)" 2 "m") as [v3 ->]; [by apply Hin|].
  destruct (value_returns id QSFP_DD_OM2_LEN_OFFSET
              "Length (OM2 50/125um)" 1 "m") as [v2 ->]; [by apply Hin|].
  simpl. unfold qsfp_dd_show_vendor_info, qsfp_dd_show_oui.
  destruct (ascii_returns id QSFP_DD_VENDOR_NAME_START_OFFSET
              QSFP_DD_VENDOR_NAME_END_OFFSET "Vendor name") as [a1 ->];
    [by vm_compute|apply Hin; by vm_compute|].
  destruct (oui_returns id QSFP_DD_VENDOR_OUI_OFFSET) as [a2 ->];
    [by vm_compute|apply Hin; by vm_compute|].
  destruct (ascii_returns id QSFP_DD_VENDOR_PN_START_OFFSET
              QSFP_DD_VENDOR_PN_END_OFFSET "Vendor PN") as [a3 ->];
    [by vm_compute|apply Hin; by vm_compute|].
  destruct (ascii_returns id QSFP_DD_VENDOR_REV_START_OFFSET
              QSFP_DD_VENDOR_REV_END_OFFSET "Vendor rev") as [a4 ->];
    [by vm_compute|apply Hin; by vm_compute|].
  destruct (ascii_returns id QSFP_DD_VENDOR_SN_START_OFFSET
              QSFP_DD_VENDOR_SN_END_OFFSET "Vendor SN") as [a5 ->];
    [by vm_compute|apply Hin; by vm_compute|].
  destruct (ascii_returns id QSFP_DD_DATE_YEAR_OFFSET
              (QSFP_DD_DATE_VENDOR_LOT_OFFSET + 1) "Date code") as [a6 ->];
    [by vm_compute|apply Hin; by vm_compute|].
  simpl. reads_in_range Hlen.
  destruct (ascii_returns id QSFP_DD_CLEI_START_OFFSET
              QSFP_DD_CLEI_END_OFFSET "CLEI code") as [a7 ->];
    [by vm_compute|apply Hin; by vm_compute|].
  unfold qsfp_dd_show_rev_compliance. reads_in_range Hlen.
  by destruct (negb _).
Qed.

(** X15: with printers that return on bytes inside the memory, the
    whole report is missing in two cases only: the memory ends before
    the signal integrity bytes of page 1 (fewer than 291 bytes), or the
    gate lets the parse run and the memory ends before offset 0x2C9
    (fewer than 714 bytes).  Every dump of 714 bytes or more has its
    report, whatever it holds and whatever length is declared. *)
Theorem show_all_defined (id : eeprom) (eeprom_len : Z) :
  qsfp_dd_show_all sff8024_show_identifier sff8024_show_connector
    sff8024_show_oui sff_show_value_with_unit sff_show_ascii id eeprom_len
  = None
  ↔ (length id < 291)%nat ∨
    (gate_returns (to_u8 (byte_at id QSFP_DD_MODULE_TYPE_OFFSET)) eeprom_len
     = false ∧ (length id < 714)%nat).
Proof.
  destruct (Nat.le_gt_cases 291 (length id)) as [Hle|Hgt].
  - rewrite (show_all_page_1_present id eeprom_len Hle).
    rewrite show_sig_optical_pwr_None. unfold PAGE0_BYTES, DIAG_BYTES.
    split; (intros [?|[? ?]]; [lia|by right]).
  - rewrite show_all_needs_page_1
      by (change QSFP_DD_SIG_INTEG_RX_OFFSET with 290; lia).
    split; [by left|done].
Qed.

(** X16: the vendor information has seven entries, the last one the
    CLEI code, when bit 5 of byte 2 is set, and the six others alone
    when it is clear. *)
Theorem vendor_info_clei (id : eeprom) (present : Z) (l : list ext) :
  rd id QSFP_DD_CLEI_PRESENT_BYTE = Some present →
  qsfp_dd_show_vendor_info sff8024_show_oui sff_show_ascii id = Some l →
  if Z.testbit present 5
  then length l = 7%nat ∧
       l !! 6%nat = sff_show_ascii id QSFP_DD_CLEI_START_OFFSET
                      QSFP_DD_CLEI_END_OFFSET "CLEI code"
  else length l = 6%nat.
Proof.
  intros Hp Hl. unfold qsfp_dd_show_vendor_info in Hl.
  repeat match type of Hl with
         | context [sff_show_ascii ?a ?b ?c ?d ≫= _] =>
             destruct (sff_show_ascii a b c d); [simpl in Hl|done]
         | context [qsfp_dd_show_oui ?f ?a ≫= _] =>
             destruct (qsfp_dd_show_oui f a); [simpl in Hl|done]
         end.
  rewrite Hp in Hl. simpl in Hl.
  change QSFP_DD_CLEI_PRESENT_MASK with (2 ^ 5) in Hl.
  rewrite land_pow2_testbit in Hl by lia.
  destruct (Z.testbit present 5).
  - destruct (sff_show_ascii id QSFP_DD_CLEI_START_OFFSET
                QSFP_DD_CLEI_END_OFFSET "CLEI code"); [simpl in Hl|done].
    by injection Hl as <-.
  - by injection Hl as <-.
Qed.

End ShowAllContract.

Lemma show_all_defined_witness :
  qsfp_dd_show_all show_byte show_byte show_byte show_unit show_last
    copper_768 256 ≠ None.
Proof.
  intros Hnone.
  apply (show_all_defined show_byte show_byte show_byte show_unit show_last)
    in Hnone.
  - vm_compute in Hnone. destruct Hnone as [H|[_ H]]; lia.
  - intros id off Hoff. by apply rd_is_Some.
  - intros id off Hoff. by apply rd_is_Some.
  - intros id off H0 H2. apply rd_is_Some. lia.
  - intros id reg name mult unit Hreg. unfold show_unit.
    destruct (rd_is_Some id reg Hreg) as [b ->]. by eexists.
  - intros id first last name H0 Hl. apply rd_is_Some. lia.
Defined.

Lemma vendor_info_clei_witness :
  ∃ l, qsfp_dd_show_vendor_info show_byte show_last
         (<[2%nat := 0x20]> (replicate 256 0x41)) = Some l ∧
       length l = 7%nat.
Proof.
  eexists. split; [reflexivity|].
  exact (proj1 (vendor_info_clei show_byte show_last
                  (<[2%nat := 0x20]> (replicate 256 0x41)) 0x20 _
                  eq_refl eq_refl)).
Defined.
